(** * hackOrSnooze: the model layer ([js/models.js])

    A shallow embedding of the classes [Story], [StoryList] and [User] of
    [src/hackOrSnooze/js/models.js], and the properties of their operations.

    - Plain JSON objects and class instances are records; a property that may
      be [undefined] is an [option].
    - Arrays are lists: [push] appends, [unshift] prepends, [filter], [map]
      and [some] take the callback as a function.
    - Methods are programs of the monad [Js]: they read and write the store of
      live objects, throw, and suspend at [await axios(...)].  [run] executes a
      program up to its first suspension, [exec] executes it to completion
      against a network oracle. *)

From stdpp Require Import base strings list.

Set Default Proof Using "Type".
Open Scope string_scope.

(** ** JavaScript values used by the layer *)

(** [a === b] and [a !== b] on strings. *)
Definition strict_eq (a b : string) : bool := String.eqb a b.
Definition strict_ne (a b : string) : bool := negb (strict_eq a b).
Infix "===" := strict_eq (at level 70, no associativity).
Infix "!==" := strict_ne (at level 70, no associativity).

(** What a [throw] carries: the rejection of an axios promise (transport
    failure or a response outside 2xx) or a [TypeError] of the runtime. *)
Inductive Exn : Type :=
  | AxiosError (message : string)
  | TypeError (message : string).

(** [Array.prototype] methods, on lists. *)
Module Array.
Section Methods.
Context {A B : Type}.

(** [arr.push(x)]: the array with [x] after its last element. *)
Definition push (arr : list A) (x : A) : list A := arr ++ [x].

(** [arr.unshift(x)]: the array with [x] before its first element. *)
Definition unshift (arr : list A) (x : A) : list A := x :: arr.

(** [arr.filter(cb)]: a new array of the elements [cb] accepts, in order. *)
Definition filter (cb : A -> bool) (arr : list A) : list A :=
  base.filter (fun x => Is_true (cb x)) arr.

(** [arr.map(cb)]: a new array. *)
Definition map (cb : A -> B) (arr : list A) : list B := cb <$> arr.

(** [arr.some(cb)]: visits the elements in order and stops at the first one
    [cb] accepts. *)
Fixpoint some (cb : A -> bool) (arr : list A) : bool :=
  match arr with
  | [] => false
  | x :: rest => if cb x then true else some cb rest
  end.
End Methods.
End Array.

(** ** Records of the API (plain objects) *)

(** [{storyId, title, author, url, username, createdAt}] *)
Module StoryRecord.
Record t : Type := mk {
  storyId : string;
  title : string;
  author : string;
  url : string;
  username : string;
  createdAt : string
}.
End StoryRecord.

(** The user object of a response: its own stories are under [stories]. *)
Module UserRecord.
Record t : Type := mk {
  username : string;
  name : string;
  createdAt : string;
  favorites : option (list StoryRecord.t);
  stories : option (list StoryRecord.t)
}.
End UserRecord.

(** The first argument of [new User(...)]:
    [{username, name, createdAt, favorites[], ownStories[]}]. *)
Module UserData.
Record t : Type := mk {
  username : string;
  name : string;
  createdAt : string;
  favorites : option (list StoryRecord.t);
  ownStories : option (list StoryRecord.t)
}.
End UserData.

(** ** axios *)

Module Axios.
Inductive Method : Type := GET | POST | DELETE.

(** The request bodies the layer sends. *)
Inductive Data : Type :=
  | no_data
  | data_token (token : option string)
  | data_token_story (token : option string) (title author url : string)
  | data_signup (username password name : string)
  | data_login (username password : string).

Record config : Type := mk_config {
  url : string;
  method : Method;
  data : Data;
  params : option string
}.

(** [response.data]: the JSON body, each property possibly absent. *)
Record body : Type := mk_body {
  stories : option (list StoryRecord.t);
  story : option StoryRecord.t;
  user : option UserRecord.t;
  token : option string
}.

Record response : Type := mk_response { response_data : body }.

(** How the promise [axios(config)] settles. *)
Inductive settled : Type :=
  | Fulfilled (response : response)
  | Rejected (err : Exn).
End Axios.

Definition BASE_URL : string := "https://hack-or-snooze-v3.herokuapp.com".

(** ** The platform's [URL] *)

Module URL.
Record t : Type := mk {
  href : string;
  protocol : string;
  host : string;
  hostname : string;
  port : string;
  pathname : string
}.
End URL.

(** [new URL(input)] is the runtime's: it gives a URL object or throws. *)
Class Platform : Type := { new_URL : string -> Exn + URL.t }.

(** ** Class instances *)

Module Story.
Record t : Type := mk {
  storyId : string;
  title : string;
  author : string;
  url : string;
  username : string;
  createdAt : string
}.

Definition constructor (r : StoryRecord.t) : t :=
  {| storyId := StoryRecord.storyId r;
     title := StoryRecord.title r;
     author := StoryRecord.author r;
     url := StoryRecord.url r;
     username := StoryRecord.username r;
     createdAt := StoryRecord.createdAt r |}.
End Story.

Module StoryList.
Record t : Type := mk { stories : list Story.t }.

Definition constructor (stories : list Story.t) : t := {| stories := stories |}.
End StoryList.

Module User.
Record t : Type := mk {
  username : string;
  name : string;
  createdAt : string;
  favorites : list Story.t;
  ownStories : list Story.t;
  loginToken : option string
}.

(** The defaults [favorites = []] and [ownStories = []] of the parameter
    list apply when the property is [undefined]. *)
Definition constructor (d : UserData.t) (token : option string) : t :=
  let favorites := default [] (UserData.favorites d) in
  let ownStories := default [] (UserData.ownStories d) in
  {| username := UserData.username d;
     name := UserData.name d;
     createdAt := UserData.createdAt d;
     favorites := Array.map Story.constructor favorites;
     ownStories := Array.map Story.constructor ownStories;
     loginToken := token |}.

Definition set_favorites (favs : list Story.t) (u : t) : t :=
  {| username := username u; name := name u; createdAt := createdAt u;
     favorites := favs; ownStories := ownStories u;
     loginToken := loginToken u |}.

Definition set_ownStories (own : list Story.t) (u : t) : t :=
  {| username := username u; name := name u; createdAt := createdAt u;
     favorites := favorites u; ownStories := own;
     loginToken := loginToken u |}.
End User.

(** ** The store and the monad of programs *)

(** The live objects the methods work on: the page's [storyList], the
    [currentUser] (the [user] argument and the [this] of the [User] methods),
    and what [console.error] has printed.  The three arrays are distinct
    objects: the constructors build them with [map]. *)
Record Store : Type := mk_Store {
  storyList : StoryList.t;
  currentUser : User.t;
  console : list (string * Exn)
}.

Definition set_storyList (sl : StoryList.t) (σ : Store) : Store :=
  {| storyList := sl; currentUser := currentUser σ; console := console σ |}.
Definition set_currentUser (u : User.t) (σ : Store) : Store :=
  {| storyList := storyList σ; currentUser := u; console := console σ |}.
Definition console_error (msg : string) (e : Exn) (σ : Store) : Store :=
  {| storyList := storyList σ; currentUser := currentUser σ;
     console := Array.push (console σ) (msg, e) |}.

(** A program: it returns, throws, reads or writes the store, or awaits the
    promise of an axios request and goes on with how it settled. *)
Inductive Js (A : Type) : Type :=
  | Ret (a : A)
  | Throw (e : Exn)
  | Get (k : Store -> Js A)
  | Put (σ : Store) (k : Js A)
  | Await (config : Axios.config) (k : Axios.settled -> Js A).
Arguments Ret {A} a.
Arguments Throw {A} e.
Arguments Get {A} k.
Arguments Put {A} σ k.
Arguments Await {A} config k.

Fixpoint bind {A B : Type} (m : Js A) (f : A -> Js B) : Js B :=
  match m with
  | Ret a => f a
  | Throw e => Throw e
  | Get k => Get (fun σ => bind (k σ) f)
  | Put σ k => Put σ (bind k f)
  | Await c k => Await c (fun r => bind (k r) f)
  end.

(** [try { m } catch (err) { h err }] *)
Fixpoint try_catch {A : Type} (m : Js A) (h : Exn -> Js A) : Js A :=
  match m with
  | Ret a => Ret a
  | Throw e => h e
  | Get k => Get (fun σ => try_catch (k σ) h)
  | Put σ k => Put σ (try_catch k h)
  | Await c k => Await c (fun r => try_catch (k r) h)
  end.

Declare Scope js_scope.
Delimit Scope js_scope with js.
Notation "'let*' x ':=' m 'in' k" := (bind m (fun x => k))
  (at level 10, x name, m at level 100, k at level 200) : js_scope.
Open Scope js_scope.

Definition get : Js Store := Get Ret.
Definition modify (f : Store -> Store) : Js unit := Get (fun σ => Put (f σ) (Ret tt)).

(** [await axios(config)]: a rejected promise is thrown at the [await]. *)
Definition await_axios (config : Axios.config) : Js Axios.response :=
  Await config (fun r =>
    match r with
    | Axios.Fulfilled response => Ret response
    | Axios.Rejected err => Throw err
    end).

(** Reading a property of [undefined], or destructuring it, throws. *)
Definition defined {A : Type} (what : string) (o : option A) : Js A :=
  match o with
  | Some a => Ret a
  | None => Throw (TypeError ("Cannot read properties of undefined: " +:+ what))
  end.

(** How a program stands when it stops running: it returned, it threw, or it
    is suspended at an [await] with the request issued. *)
Inductive Outcome (A : Type) : Type :=
  | Returned (a : A) (σ : Store)
  | Thrown (e : Exn) (σ : Store)
  | Suspended (config : Axios.config) (σ : Store) (k : Axios.settled -> Js A).
Arguments Returned {A} a σ.
Arguments Thrown {A} e σ.
Arguments Suspended {A} config σ k.

(** Run the synchronous part: up to the first [await]. *)
Fixpoint run {A : Type} (m : Js A) (σ : Store) : Outcome A :=
  match m with
  | Ret a => Returned a σ
  | Throw e => Thrown e σ
  | Get k => run (k σ) σ
  | Put σ' k => run k σ'
  | Await c k => Suspended c σ k
  end.

Definition store_of {A : Type} (o : Outcome A) : Store :=
  match o with
  | Returned _ σ | Thrown _ σ | Suspended _ σ _ => σ
  end.

(** How a call completes: its value, or what it threw (for an [async]
    function: what its promise resolved to or rejected with). *)
Inductive Completion (A : Type) : Type :=
  | Normal (a : A)
  | Abrupt (e : Exn).
Arguments Normal {A} a.
Arguments Abrupt {A} e.

(** Run to completion, with nothing else scheduled in between: [net] tells
    how the promise of each request settles. *)
Fixpoint exec {A : Type} (net : Axios.config -> Axios.settled)
    (m : Js A) (σ : Store) : Completion A * Store :=
  match m with
  | Ret a => (Normal a, σ)
  | Throw e => (Abrupt e, σ)
  | Get k => exec net (k σ) σ
  | Put σ' k => exec net k σ'
  | Await c k => exec net (k (net c)) σ
  end.

(** ** The methods of [models.js] *)

(** *** class Story *)

(** [getHostName()]: [new URL(this.url)] and then its [host]. *)
Definition getHostName `{Platform} (this : Story.t) : Js string :=
  match new_URL (Story.url this) with
  | inr urlObject => Ret (URL.host urlObject)
  | inl err => Throw err
  end.

(** *** class StoryList *)

(** [static async getStories()] *)
Definition getStories : Js StoryList.t :=
  let* response :=
    await_axios {| Axios.url := BASE_URL +:+ "/stories";
                   Axios.method := Axios.GET;
                   Axios.data := Axios.no_data;
                   Axios.params := None |} in
  let* records := defined "map" (Axios.stories (Axios.response_data response)) in
  let stories := Array.map Story.constructor records in
  Ret (StoryList.constructor stories).

(** [async addStory(user, { title, author, url })], on the store's
    [storyList] as [this] and its [currentUser] as [user]. *)
Definition addStory (title author url : string) : Js Story.t :=
  let* σ0 := get in
  let token := User.loginToken (currentUser σ0) in
  let* response :=
    await_axios {| Axios.url := BASE_URL +:+ "/stories";
                   Axios.method := Axios.POST;
                   Axios.data := Axios.data_token_story token title author url;
                   Axios.params := None |} in
  let* record := defined "storyId" (Axios.story (Axios.response_data response)) in
  let story := Story.constructor record in
  let* _ := modify (fun σ =>
    set_storyList
      (StoryList.mk (Array.unshift (StoryList.stories (storyList σ)) story)) σ) in
  let* _ := modify (fun σ =>
    set_currentUser
      (User.set_ownStories
         (Array.unshift (User.ownStories (currentUser σ)) story)
         (currentUser σ)) σ) in
  Ret story.

(** [async removeStory(user, storyId)] *)
Definition removeStory (storyId : string) : Js unit :=
  let* σ0 := get in
  let token := User.loginToken (currentUser σ0) in
  let* _ :=
    await_axios {| Axios.url := BASE_URL +:+ "/stories/" +:+ storyId;
                   Axios.method := Axios.DELETE;
                   Axios.data := Axios.data_token token;
                   Axios.params := None |} in
  let* _ := modify (fun σ =>
    set_storyList
      (StoryList.mk
         (Array.filter (fun story => Story.storyId story !== storyId)
            (StoryList.stories (storyList σ)))) σ) in
  let* _ := modify (fun σ =>
    set_currentUser
      (User.set_ownStories
         (Array.filter (fun s => Story.storyId s !== storyId)
            (User.ownStories (currentUser σ)))
         (currentUser σ)) σ) in
  modify (fun σ =>
    set_currentUser
      (User.set_favorites
         (Array.filter (fun s => Story.storyId s !== storyId)
            (User.favorites (currentUser σ)))
         (currentUser σ)) σ).

(** *** class User *)

(** The object literal the three login paths pass to [new User]. *)
Definition user_data (user : UserRecord.t) : UserData.t :=
  {| UserData.username := UserRecord.username user;
     UserData.name := UserRecord.name user;
     UserData.createdAt := UserRecord.createdAt user;
     UserData.favorites := UserRecord.favorites user;
     UserData.ownStories := UserRecord.stories user |}.

(** [static async signup(username, password, name)] *)
Definition signup (username password name : string) : Js User.t :=
  let* response :=
    await_axios {| Axios.url := BASE_URL +:+ "/signup";
                   Axios.method := Axios.POST;
                   Axios.data := Axios.data_signup username password name;
                   Axios.params := None |} in
  let* user := defined "username" (Axios.user (Axios.response_data response)) in
  Ret (User.constructor (user_data user)
         (Axios.token (Axios.response_data response))).

(** [static async login(username, password)] *)
Definition login (username password : string) : Js User.t :=
  let* response :=
    await_axios {| Axios.url := BASE_URL +:+ "/login";
                   Axios.method := Axios.POST;
                   Axios.data := Axios.data_login username password;
                   Axios.params := None |} in
  let* user := defined "username" (Axios.user (Axios.response_data response)) in
  Ret (User.constructor (user_data user)
         (Axios.token (Axios.response_data response))).

(** [static async loginViaStoredCredentials(token, username)]; [null] is
    [None]. *)
Definition loginViaStoredCredentials (token username : string)
    : Js (option User.t) :=
  try_catch
    (let* response :=
       await_axios {| Axios.url := BASE_URL +:+ "/users/" +:+ username;
                      Axios.method := Axios.GET;
                      Axios.data := Axios.no_data;
                      Axios.params := Some token |} in
     let* user := defined "username" (Axios.user (Axios.response_data response)) in
     Ret (Some (User.constructor (user_data user) (Some token))))
    (fun err =>
       let* _ := modify (console_error "loginViaStoredCredentials failed" err) in
       Ret None).

(** [async _addOrRemoveFavorite(newState, story)] *)
Definition _addOrRemoveFavorite (newState : string) (story : Story.t) : Js unit :=
  let method := if newState === "add" then Axios.POST else Axios.DELETE in
  let* σ := get in
  let this := currentUser σ in
  let token := User.loginToken this in
  let* _ :=
    await_axios {| Axios.url := BASE_URL +:+ "/users/" +:+ User.username this
                                 +:+ "/favorites/" +:+ Story.storyId story;
                   Axios.method := method;
                   Axios.data := Axios.data_token token;
                   Axios.params := None |} in
  Ret tt.

(** [async addFavorite(story)] *)
Definition addFavorite (story : Story.t) : Js unit :=
  let* _ := modify (fun σ =>
    set_currentUser
      (User.set_favorites
         (Array.push (User.favorites (currentUser σ)) story)
         (currentUser σ)) σ) in
  _addOrRemoveFavorite "add" story.

(** [async removeFavorite(story)] *)
Definition removeFavorite (story : Story.t) : Js unit :=
  let* _ := modify (fun σ =>
    set_currentUser
      (User.set_favorites
         (Array.filter (fun s => Story.storyId s !== Story.storyId story)
            (User.favorites (currentUser σ)))
         (currentUser σ)) σ) in
  _addOrRemoveFavorite "remove" story.

(** [isFavorite(story)] *)
Definition isFavorite (story : Story.t) : Js bool :=
  let* σ := get in
  let this := currentUser σ in
  Ret (Array.some (fun s => Story.storyId s === Story.storyId story)
         (User.favorites this)).

(** *** [stories.js]: the star of a story *)

Definition double_quote : string := String (Ascii.ascii_of_nat 34) EmptyString.
Definition newline : string := String (Ascii.ascii_of_nat 10) EmptyString.

(** [getStarHTML(story, user)], with the store's [currentUser] as [user] (as
    [generateStoryMarkup] calls it): the markup of the filled or of the outline
    star. *)
Definition getStarHTML (story : Story.t) : Js string :=
  let* isFavorite := isFavorite story in
  let starType := if isFavorite then "fas" else "far" in
  Ret (newline
       +:+ "        <span class=" +:+ double_quote +:+ "star" +:+ double_quote
       +:+ ">" +:+ newline
       +:+ "          <i class=" +:+ double_quote +:+ starType +:+ " fa-star"
       +:+ double_quote +:+ "></i>" +:+ newline
       +:+ "        </span>").

(** ** Vocabulary of the properties *)

(** *** The invariant on collections of stories *)

(** The [storyId]s of a collection, in its order. *)
Definition storyIds (stories : list Story.t) : list string :=
  Story.storyId <$> stories.

(** No two entries of the collection have the same [storyId]. *)
Definition no_duplicate_storyId (stories : list Story.t) : Prop :=
  NoDup (storyIds stories).

(** How many entries of the collection have this [storyId]. *)
Definition entries_with (storyId : string) (stories : list Story.t) : nat :=
  length (Array.filter (fun s => Story.storyId s === storyId) stories).

Definition User_invariant (u : User.t) : Prop :=
  no_duplicate_storyId (User.favorites u)
  /\ no_duplicate_storyId (User.ownStories u).

#[global] Instance no_duplicate_storyId_dec stories :
  Decision (no_duplicate_storyId stories).
Proof. unfold no_duplicate_storyId. apply _. Defined.

#[global] Instance User_invariant_dec u : Decision (User_invariant u).
Proof. unfold User_invariant. apply _. Defined.

(** *** The requests the methods issue, the stores they leave *)

(** The requests of the [StoryList] methods. *)
Definition create_story_request (σ : Store) (title author url : string)
    : Axios.config :=
  {| Axios.url := BASE_URL +:+ "/stories";
     Axios.method := Axios.POST;
     Axios.data :=
       Axios.data_token_story (User.loginToken (currentUser σ)) title author url;
     Axios.params := None |}.

Definition delete_story_request (σ : Store) (storyId : string) : Axios.config :=
  {| Axios.url := BASE_URL +:+ "/stories/" +:+ storyId;
     Axios.method := Axios.DELETE;
     Axios.data := Axios.data_token (User.loginToken (currentUser σ));
     Axios.params := None |}.

(** The store after [addStory] has inserted [story]. *)
Definition with_new_story (story : Story.t) (σ : Store) : Store :=
  let σ1 :=
    set_storyList
      (StoryList.mk (Array.unshift (StoryList.stories (storyList σ)) story)) σ in
  set_currentUser
    (User.set_ownStories
       (Array.unshift (User.ownStories (currentUser σ1)) story)
       (currentUser σ1)) σ1.

(** The store after [removeStory] has purged [storyId]. *)
Definition without_story (storyId : string) (σ : Store) : Store :=
  let keep := fun s => Story.storyId s !== storyId in
  let σ1 :=
    set_storyList
      (StoryList.mk (Array.filter keep (StoryList.stories (storyList σ)))) σ in
  let σ2 :=
    set_currentUser
      (User.set_ownStories
         (Array.filter keep (User.ownStories (currentUser σ1)))
         (currentUser σ1)) σ1 in
  set_currentUser
    (User.set_favorites
       (Array.filter keep (User.favorites (currentUser σ2)))
       (currentUser σ2)) σ2.

(** A [Story] exposes the fields of the record it was made from. *)
Definition exposes (record : StoryRecord.t) (story : Story.t) : Prop :=
  Story.storyId story = StoryRecord.storyId record
  /\ Story.title story = StoryRecord.title record
  /\ Story.author story = StoryRecord.author record
  /\ Story.url story = StoryRecord.url record
  /\ Story.username story = StoryRecord.username record
  /\ Story.createdAt story = StoryRecord.createdAt record.

(** The request of [loginViaStoredCredentials]. *)
Definition get_user_request (token username : string) : Axios.config :=
  {| Axios.url := BASE_URL +:+ "/users/" +:+ username;
     Axios.method := Axios.GET;
     Axios.data := Axios.no_data;
     Axios.params := Some token |}.

(** The request of [_addOrRemoveFavorite], from the user as it is when the
    request is built. *)
Definition favorite_request (method : Axios.Method) (story : Story.t) (σ : Store)
    : Axios.config :=
  {| Axios.url := BASE_URL +:+ "/users/" +:+ User.username (currentUser σ)
                  +:+ "/favorites/" +:+ Story.storyId story;
     Axios.method := method;
     Axios.data := Axios.data_token (User.loginToken (currentUser σ));
     Axios.params := None |}.

(** The store after the local step of [addFavorite], of [removeFavorite]. *)
Definition with_favorite (story : Story.t) (σ : Store) : Store :=
  set_currentUser
    (User.set_favorites
       (Array.push (User.favorites (currentUser σ)) story) (currentUser σ)) σ.

Definition without_favorite (story : Story.t) (σ : Store) : Store :=
  set_currentUser
    (User.set_favorites
       (Array.filter (fun s => Story.storyId s !== Story.storyId story)
          (User.favorites (currentUser σ)))
       (currentUser σ)) σ.

(** A continuation that only passes on how the request settled: it returns
    when the promise was fulfilled and throws the rejection otherwise, in
    whatever store it is resumed. *)
Definition passes_on_settlement (k : Axios.settled -> Js unit) : Prop :=
  forall (r : Axios.settled) (σ : Store),
    run (k r) σ
    = match r with
      | Axios.Fulfilled _ => Returned tt σ
      | Axios.Rejected err => Thrown err σ
      end.

(** *** Two calls in flight *)

(** Two calls issued one after the other, each suspended on its request,
    whose promises then settle in one order or the other; [None] when a call
    does not suspend or awaits a second time. *)
Definition finish (k : Axios.settled -> Js unit) (r : Axios.settled) (σ : Store)
    : option Store :=
  match run (k r) σ with
  | Returned _ σ' | Thrown _ σ' => Some σ'
  | Suspended _ _ _ => None
  end.

Definition issue_both_then_settle (m1 m2 : Js unit) (first_settles_first : bool)
    (r1 r2 : Axios.settled) (σ : Store) : option Store :=
  match run m1 σ with
  | Suspended _ σ1 k1 =>
      match run m2 σ1 with
      | Suspended _ σ2 k2 =>
          if first_settles_first
          then σ3 ← finish k1 r1 σ2; finish k2 r2 σ3
          else σ3 ← finish k2 r2 σ2; finish k1 r1 σ3
      | _ => None
      end
  | _ => None
  end.

(** *** The requests of the static methods *)

Definition stories_request : Axios.config :=
  {| Axios.url := BASE_URL +:+ "/stories";
     Axios.method := Axios.GET;
     Axios.data := Axios.no_data;
     Axios.params := None |}.

Definition signup_request (username password name : string) : Axios.config :=
  {| Axios.url := BASE_URL +:+ "/signup";
     Axios.method := Axios.POST;
     Axios.data := Axios.data_signup username password name;
     Axios.params := None |}.

Definition login_request (username password : string) : Axios.config :=
  {| Axios.url := BASE_URL +:+ "/login";
     Axios.method := Axios.POST;
     Axios.data := Axios.data_login username password;
     Axios.params := None |}.

(** The markup names this class on the star's icon. *)
Definition star_has_class (class html : string) : Prop :=
  is_Some (String.index 0 (class +:+ " fa-star") html).

(** *** A concrete session *)

(** A small platform for the examples: [new URL] accepts
    [scheme://host/path] and takes [host] up to the first [/]. *)
Definition example_new_URL (input : string) : Exn + URL.t :=
  match String.index 0 "://" input with
  | None => inl (TypeError "Invalid URL")
  | Some i =>
      let rest := String.substring (i + 3) (String.length input - (i + 3)) input in
      let host_length := default (String.length rest) (String.index 0 "/" rest) in
      let host := String.substring 0 host_length rest in
      let hostname :=
        String.substring 0 (default host_length (String.index 0 ":" host)) host in
      inr {| URL.href := input;
             URL.protocol := String.substring 0 (i + 1) input;
             URL.host := host;
             URL.hostname := hostname;
             URL.port :=
               String.substring (String.length hostname + 1)
                 (String.length host) host;
             URL.pathname :=
               String.substring host_length (String.length rest) rest |}
  end.

Definition example_platform : Platform := {| new_URL := example_new_URL |}.

Definition record_1 : StoryRecord.t :=
  {| StoryRecord.storyId := "story-1";
     StoryRecord.title := "Interaction trees";
     StoryRecord.author := "L. Xia";
     StoryRecord.url := "https://example.org:8080/itrees";
     StoryRecord.username := "alice";
     StoryRecord.createdAt := "2023-04-01T10:00:00.000Z" |}.

Definition record_2 : StoryRecord.t :=
  {| StoryRecord.storyId := "story-2";
     StoryRecord.title := "No scheme";
     StoryRecord.author := "B. Ob";
     StoryRecord.url := "example.org/no-scheme";
     StoryRecord.username := "bob";
     StoryRecord.createdAt := "2023-04-02T10:00:00.000Z" |}.

Definition record_3 : StoryRecord.t :=
  {| StoryRecord.storyId := "story-3";
     StoryRecord.title := "Fresh";
     StoryRecord.author := "C. Arol";
     StoryRecord.url := "https://example.com/fresh";
     StoryRecord.username := "alice";
     StoryRecord.createdAt := "2023-04-03T10:00:00.000Z" |}.

Definition story_1 : Story.t := Story.constructor record_1.
Definition story_2 : Story.t := Story.constructor record_2.

(** alice has posted and favorited [story_1]. *)
Definition alice : User.t :=
  User.constructor
    {| UserData.username := "alice";
       UserData.name := "Alice";
       UserData.createdAt := "2023-01-01T00:00:00.000Z";
       UserData.favorites := Some [record_1];
       UserData.ownStories := Some [record_1] |}
    (Some "token-alice").

Definition session : Store :=
  {| storyList := StoryList.constructor [story_1; story_2];
     currentUser := alice;
     console := [] |}.

(** A server that fulfils every request, answering with [record]. *)
Definition answer (record : StoryRecord.t) : Axios.response :=
  {| Axios.response_data :=
       {| Axios.stories := None; Axios.story := Some record;
          Axios.user := None; Axios.token := None |} |}.

Definition server_answers (record : StoryRecord.t) (_ : Axios.config)
    : Axios.settled :=
  Axios.Fulfilled (answer record).

(** A network on which every request fails. *)
Definition network_down (_ : Axios.config) : Axios.settled :=
  Axios.Rejected (AxiosError "Network Error").

(** A server that fulfils every request with an empty body. *)
Definition empty_answer : Axios.response :=
  {| Axios.response_data :=
       {| Axios.stories := None; Axios.story := None;
          Axios.user := None; Axios.token := None |} |}.

Definition server_acknowledges (_ : Axios.config) : Axios.settled :=
  Axios.Fulfilled empty_answer.

Definition story_3 : Story.t := Story.constructor record_3.

(** ** Facts about the array methods *)

Section ArrayFacts.
Context {A : Type}.
Implicit Types (cb : A -> bool) (arr : list A).

Lemma strict_eq_true (a b : string) : (a === b) = true <-> a = b.
Proof. apply String.eqb_eq. Qed.

Lemma strict_ne_true (a b : string) : (a !== b) = true <-> a <> b.
Proof.
  unfold strict_ne, strict_eq. rewrite negb_true_iff. apply String.eqb_neq.
Qed.

Lemma strict_ne_false (a b : string) : (a !== b) = false <-> a = b.
Proof.
  unfold strict_ne, strict_eq. rewrite negb_false_iff. apply String.eqb_eq.
Qed.

Lemma elem_of_Array_filter cb arr x :
  x ∈ Array.filter cb arr <-> cb x = true /\ x ∈ arr.
Proof.
  unfold Array.filter. rewrite list_elem_of_filter, Is_true_true. tauto.
Qed.

Lemma Array_filter_cons cb x arr :
  Array.filter cb (x :: arr)
  = if cb x then x :: Array.filter cb arr else Array.filter cb arr.
Proof.
  unfold Array.filter. rewrite filter_cons. by destruct (cb x).
Qed.

Lemma Array_filter_push cb arr x :
  Array.filter cb (Array.push arr x)
  = if cb x then Array.push (Array.filter cb arr) x else Array.filter cb arr.
Proof.
  unfold Array.push. induction arr as [|y arr IH].
  - rewrite app_nil_l, Array_filter_cons. by destruct (cb x).
  - rewrite <- app_comm_cons, !Array_filter_cons, IH.
    by destruct (cb y), (cb x).
Qed.

(** A filter that accepts every element changes nothing. *)
Lemma Array_filter_all cb arr :
  (forall x, x ∈ arr -> cb x = true) -> Array.filter cb arr = arr.
Proof.
  induction arr as [|y arr IH]; intros Hall; [done|].
  rewrite Array_filter_cons, (Hall y) by left.
  f_equal. apply IH. intros x Hx. apply Hall. by right.
Qed.

(** [filter] keeps the order: it only drops elements. *)
Lemma Array_filter_sublist cb arr : sublist (Array.filter cb arr) arr.
Proof.
  induction arr as [|y arr IH]; [done|].
  rewrite Array_filter_cons. destruct (cb y); by constructor.
Qed.

Lemma Array_some_true cb arr :
  Array.some cb arr = true <-> exists x, x ∈ arr /\ cb x = true.
Proof.
  induction arr as [|y arr IH]; simpl.
  - split; [done|]. intros (x & Hx & _). by apply elem_of_nil in Hx.
  - destruct (cb y) eqn:Hy.
    + split; [|done]. intros _. exists y. split; [left|done].
    + rewrite IH. split.
      * intros (x & Hx & Hcb). exists x. split; [by right|done].
      * intros (x & Hx & Hcb). apply elem_of_cons in Hx as [->|Hx];
          [congruence|]. by exists x.
Qed.

Lemma Array_some_false cb arr :
  Array.some cb arr = false <-> forall x, x ∈ arr -> cb x = false.
Proof.
  rewrite <- not_true_iff_false, Array_some_true. split.
  - intros Hno x Hx. apply not_true_iff_false. intros Hcb. apply Hno. eauto.
  - intros Hall (x & Hx & Hcb). rewrite (Hall x Hx) in Hcb. done.
Qed.
End ArrayFacts.

(** ** Facts about the invariant *)

Section InvariantFacts.
Implicit Types (stories : list Story.t) (s story : Story.t) (id : string).

Lemma entries_with_cons id s stories :
  entries_with id (s :: stories)
  = (if Story.storyId s === id then 1 else 0) + entries_with id stories.
Proof.
  unfold entries_with. rewrite Array_filter_cons.
  by destruct (Story.storyId s === id).
Qed.

Lemma entries_with_zero id stories :
  entries_with id stories = 0 <-> id ∉ storyIds stories.
Proof.
  unfold storyIds. induction stories as [|s stories IH].
  - split; [|done]. intros _ Hin. by apply elem_of_nil in Hin.
  - rewrite entries_with_cons, fmap_cons, not_elem_of_cons, <- IH.
    destruct (Story.storyId s === id) eqn:E.
    + apply strict_eq_true in E. split; [done|]. intros [Hne _]. congruence.
    + simpl. split; [|tauto]. intros ->. split; [|done].
      intros ->. pose proof (proj2 (strict_eq_true (Story.storyId s)
        (Story.storyId s)) eq_refl). congruence.
Qed.

(** The invariant, counted: each [storyId] has at most one entry. *)
Lemma no_duplicate_storyId_count stories :
  no_duplicate_storyId stories <-> forall id, entries_with id stories <= 1.
Proof.
  unfold no_duplicate_storyId, storyIds.
  induction stories as [|s stories IH].
  - split; [intros _ id; cbn; lia | intros _; constructor].
  - rewrite fmap_cons, NoDup_cons, IH. split.
    + intros [Hnew Hrest] id. rewrite entries_with_cons.
      destruct (Story.storyId s === id) eqn:E; [|apply Hrest].
      apply strict_eq_true in E. subst id.
      apply entries_with_zero in Hnew. lia.
    + intros Hcount. split.
      * apply entries_with_zero. specialize (Hcount (Story.storyId s)).
        rewrite entries_with_cons in Hcount.
        rewrite (proj2 (strict_eq_true _ _) eq_refl) in Hcount. lia.
      * intros id. specialize (Hcount id).
        rewrite entries_with_cons in Hcount. lia.
Qed.

Lemma no_duplicate_storyId_filter cb stories :
  no_duplicate_storyId stories ->
  no_duplicate_storyId (Array.filter cb stories).
Proof.
  unfold no_duplicate_storyId, storyIds. intros Hnd.
  eapply sublist_NoDup; [exact Hnd|].
  apply fmap_sublist, Array_filter_sublist.
Qed.

Lemma no_duplicate_storyId_push stories story :
  no_duplicate_storyId stories ->
  Story.storyId story ∉ storyIds stories ->
  no_duplicate_storyId (Array.push stories story).
Proof.
  unfold no_duplicate_storyId, storyIds, Array.push. intros Hnd Hnew.
  rewrite fmap_app. apply NoDup_app. split; [done|]. split.
  - intros id Hid Hin. apply list_elem_of_singleton in Hin. by subst id.
  - apply NoDup_singleton.
Qed.

Lemma no_duplicate_storyId_unshift stories story :
  no_duplicate_storyId stories ->
  Story.storyId story ∉ storyIds stories ->
  no_duplicate_storyId (Array.unshift stories story).
Proof.
  unfold no_duplicate_storyId, storyIds, Array.unshift. intros Hnd Hnew.
  rewrite fmap_cons. by apply NoDup_cons.
Qed.

(** Filtering by [s.storyId !== id] leaves no entry with [id]. *)
Lemma storyId_filtered_out id stories :
  id ∉ storyIds (Array.filter (fun s => Story.storyId s !== id) stories).
Proof.
  unfold storyIds. intros Hin.
  apply list_elem_of_fmap in Hin as (s & -> & Hs).
  apply elem_of_Array_filter in Hs as [Hne _].
  by apply strict_ne_true in Hne.
Qed.

(** ... and is the identity when there was none. *)
Lemma filter_absent_storyId id stories :
  id ∉ storyIds stories ->
  Array.filter (fun s => Story.storyId s !== id) stories = stories.
Proof.
  intros Hno. apply Array_filter_all. intros s Hs.
  apply strict_ne_true. intros <-. apply Hno.
  unfold storyIds. apply list_elem_of_fmap. eauto.
Qed.
End InvariantFacts.

(** ** Running programs *)

Section Semantics.
Context {A B : Type}.
Implicit Types (net : Axios.config -> Axios.settled) (σ : Store).

Lemma run_bind (m : Js A) (f : A -> Js B) σ :
  run (bind m f) σ
  = match run m σ with
    | Returned a σ' => run (f a) σ'
    | Thrown e σ' => Thrown e σ'
    | Suspended c σ' k => Suspended c σ' (fun r => bind (k r) f)
    end.
Proof. revert σ. induction m; intros; simpl; auto. Qed.

Lemma exec_bind net (m : Js A) (f : A -> Js B) σ :
  exec net (bind m f) σ
  = match exec net m σ with
    | (Normal a, σ') => exec net (f a) σ'
    | (Abrupt e, σ') => (Abrupt e, σ')
    end.
Proof. revert σ. induction m; intros; simpl; auto. Qed.

Lemma exec_try_catch net (m : Js A) (h : Exn -> Js A) σ :
  exec net (try_catch m h) σ
  = match exec net m σ with
    | (Normal a, σ') => (Normal a, σ')
    | (Abrupt e, σ') => exec net (h e) σ'
    end.
Proof. revert σ. induction m; intros; simpl; auto. Qed.

(** Running to completion is running to the suspension and resuming with
    what the network answers. *)
Lemma exec_run net (m : Js A) σ :
  exec net m σ
  = match run m σ with
    | Returned a σ' => (Normal a, σ')
    | Thrown e σ' => (Abrupt e, σ')
    | Suspended c σ' k => exec net (k (net c)) σ'
    end.
Proof. revert σ. induction m; intros; simpl; auto. Qed.
End Semantics.

Section SemanticsOfPrimitives.
Implicit Types (net : Axios.config -> Axios.settled) (σ : Store).

Lemma exec_get net σ : exec net get σ = (Normal σ, σ).
Proof. reflexivity. Qed.

Lemma exec_modify net f σ : exec net (modify f) σ = (Normal tt, f σ).
Proof. reflexivity. Qed.

Lemma exec_await_axios net c σ :
  exec net (await_axios c) σ
  = match net c with
    | Axios.Fulfilled response => (Normal response, σ)
    | Axios.Rejected err => (Abrupt err, σ)
    end.
Proof. simpl. by destruct (net c). Qed.

Lemma run_get σ : run get σ = Returned σ σ.
Proof. reflexivity. Qed.

Lemma run_modify f σ : run (modify f) σ = Returned tt (f σ).
Proof. reflexivity. Qed.
End SemanticsOfPrimitives.

(** Unfold one layer of a program under [exec] or [run]. *)
Ltac js_step :=
  rewrite ?exec_bind, ?exec_try_catch, ?run_bind,
    ?exec_get, ?exec_modify, ?exec_await_axios, ?run_get, ?run_modify;
  cbv beta iota zeta.
Ltac js_steps := repeat (progress js_step).

(** ** What [addStory] and [removeStory] do *)

Section StoryListMethods.
Implicit Types (net : Axios.config -> Axios.settled) (σ : Store).
Implicit Types (story : Story.t) (storyId : string).

Lemma addStory_exec net σ title author url :
  exec net (addStory title author url) σ
  = match net (create_story_request σ title author url) with
    | Axios.Rejected err => (Abrupt err, σ)
    | Axios.Fulfilled response =>
        match Axios.story (Axios.response_data response) with
        | Some record =>
            (Normal (Story.constructor record),
             with_new_story (Story.constructor record) σ)
        | None =>
            (Abrupt (TypeError
               ("Cannot read properties of undefined: " +:+ "storyId")), σ)
        end
    end.
Proof.
  unfold addStory, create_story_request. js_steps.
  destruct (net _) as [response|err]; [|done]. js_steps.
  destruct (Axios.story _) as [record|]; [|done]. simpl. js_steps. done.
Qed.

Lemma removeStory_exec net σ storyId :
  exec net (removeStory storyId) σ
  = match net (delete_story_request σ storyId) with
    | Axios.Rejected err => (Abrupt err, σ)
    | Axios.Fulfilled _ => (Normal tt, without_story storyId σ)
    end.
Proof.
  unfold removeStory, delete_story_request. js_steps.
  destruct (net _) as [response|err]; [|done]. js_steps. done.
Qed.
(** Nothing is changed before the request is issued, and what is changed
    afterwards is the store as it is when the promise settles. *)
Lemma addStory_run σ title author url :
  exists k,
    run (addStory title author url) σ
    = Suspended (create_story_request σ title author url) σ k
    /\ forall σ1,
         (forall err, run (k (Axios.Rejected err)) σ1 = Thrown err σ1)
         /\ (forall response record,
               Axios.story (Axios.response_data response) = Some record ->
               run (k (Axios.Fulfilled response)) σ1
               = Returned (Story.constructor record)
                   (with_new_story (Story.constructor record) σ1)).
Proof.
  unfold addStory. js_steps. eexists. split; [reflexivity|].
  intros σ1. split.
  - intros err. reflexivity.
  - intros response record Hrecord. cbn [bind]. js_steps.
    rewrite Hrecord. reflexivity.
Qed.

Lemma removeStory_run σ storyId :
  exists k,
    run (removeStory storyId) σ
    = Suspended (delete_story_request σ storyId) σ k
    /\ forall σ1,
         (forall err, run (k (Axios.Rejected err)) σ1 = Thrown err σ1)
         /\ (forall response,
               run (k (Axios.Fulfilled response)) σ1
               = Returned tt (without_story storyId σ1)).
Proof.
  unfold removeStory. js_steps. eexists. split; [reflexivity|].
  intros σ1. split; intros; reflexivity.
Qed.
End StoryListMethods.

(** ** Story and User: construction and lookups *)

Lemma Story_constructor_exposes record : exposes record (Story.constructor record).
Proof. by repeat split. Qed.

Lemma map_Story_constructor_exposes records :
  Forall2 exposes records (Array.map Story.constructor records).
Proof.
  unfold Array.map. induction records as [|r records IH]; [constructor|].
  rewrite fmap_cons. constructor; [apply Story_constructor_exposes|exact IH].
Qed.

(** C10: the [User] constructor gives the empty array for a [favorites] or
    [ownStories] property that is absent; when the property is present, the
    collection has one [Story] per record, in order, exposing the record's
    fields verbatim; [loginToken] is the token argument, and [username],
    [name] and [createdAt] are those of the record. *)
Theorem User_constructor_wraps_records (d : UserData.t) (token : option string) :
  let u := User.constructor d token in
  match UserData.favorites d with
  | None => User.favorites u = []
  | Some records => Forall2 exposes records (User.favorites u)
  end
  /\ match UserData.ownStories d with
     | None => User.ownStories u = []
     | Some records => Forall2 exposes records (User.ownStories u)
     end
  /\ User.loginToken u = token
  /\ User.username u = UserData.username d
  /\ User.name u = UserData.name d
  /\ User.createdAt u = UserData.createdAt d.
Proof.
  destruct d as [username name createdAt favorites ownStories]. simpl.
  split; [|split]; [| |done].
  - destruct favorites as [records|]; simpl; [|done].
    apply map_Story_constructor_exposes.
  - destruct ownStories as [records|]; simpl; [|done].
    apply map_Story_constructor_exposes.
Qed.

(** C8: [isFavorite(s)] returns the boolean
    [favorites.some(f => f.storyId === s.storyId)], which is [true] exactly
    when some entry of [favorites] has the [storyId] of [s]; it returns
    without throwing or awaiting, and leaves the store as it was. *)
Theorem isFavorite_is_some_on_favorites (σ : Store) (s : Story.t) :
  exists b : bool,
    run (isFavorite s) σ = Returned b σ
    /\ b = Array.some (fun f => Story.storyId f === Story.storyId s)
             (User.favorites (currentUser σ))
    /\ (b = true <->
        exists f, f ∈ User.favorites (currentUser σ)
                  /\ Story.storyId f = Story.storyId s).
Proof.
  eexists. split; [|split].
  - unfold isFavorite. js_steps. reflexivity.
  - reflexivity.
  - rewrite Array_some_true. split; intros (f & Hf & Heq); exists f;
      (split; [done|]); by apply strict_eq_true.
Qed.

(** C7: [getHostName()] returns the [host] of the URL object the platform
    builds from [url], and throws what [new URL] throws when the platform
    rejects [url]; it leaves the store as it was and awaits nothing, and two
    stories with the same [url] run the same program. *)
Theorem getHostName_is_host_of_url `{Platform} (this : Story.t) (σ : Store) :
  match new_URL (Story.url this) with
  | inr urlObject => run (getHostName this) σ = Returned (URL.host urlObject) σ
  | inl err => run (getHostName this) σ = Thrown err σ
  end
  /\ forall other : Story.t,
       Story.url other = Story.url this -> getHostName other = getHostName this.
Proof.
  split.
  - unfold getHostName. by destruct (new_URL (Story.url this)).
  - intros other Hurl. unfold getHostName. by rewrite Hurl.
Qed.

Lemma loginViaStoredCredentials_exec net σ token username :
  exec net (loginViaStoredCredentials token username) σ
  = match net (get_user_request token username) with
    | Axios.Rejected err =>
        (Normal None, console_error "loginViaStoredCredentials failed" err σ)
    | Axios.Fulfilled response =>
        match Axios.user (Axios.response_data response) with
        | Some user =>
            (Normal (Some (User.constructor (user_data user) (Some token))), σ)
        | None =>
            (Normal None,
             console_error "loginViaStoredCredentials failed"
               (TypeError ("Cannot read properties of undefined: " +:+ "username"))
               σ)
        end
    end.
Proof.
  unfold loginViaStoredCredentials, get_user_request. js_steps.
  destruct (net _) as [response|err]; [|by js_steps]. js_steps.
  destruct (Axios.user _) as [user|]; simpl; by js_steps.
Qed.

(** C6: [loginViaStoredCredentials(token, username)] always completes
    normally, with the collections of the store untouched: it gives [null]
    when the profile request is rejected (and when the response carries no
    user), and otherwise a [User] rebuilt from the fetched profile: its
    [username], [name] and [createdAt] are the profile's, its [favorites] are
    the profile's [favorites] and its [ownStories] the profile's [stories],
    one [Story] per record, in order and with the record's fields (the empty
    array for an absent list), and its [loginToken] is the token passed
    in. *)
Theorem loginViaStoredCredentials_never_throws
    (net : Axios.config -> Axios.settled) (σ : Store) (token username : string) :
  exists (result : option User.t) (σ' : Store),
    exec net (loginViaStoredCredentials token username) σ = (Normal result, σ')
    /\ storyList σ' = storyList σ
    /\ currentUser σ' = currentUser σ
    /\ match net (get_user_request token username) with
       | Axios.Rejected err => result = None
       | Axios.Fulfilled response =>
           match Axios.user (Axios.response_data response) with
           | Some profile =>
               exists u, result = Some u
                 /\ u = User.constructor (user_data profile) (Some token)
                 /\ User.loginToken u = Some token
                 /\ User.username u = UserRecord.username profile
                 /\ User.name u = UserRecord.name profile
                 /\ User.createdAt u = UserRecord.createdAt profile
                 /\ match UserRecord.favorites profile with
                    | None => User.favorites u = []
                    | Some records => Forall2 exposes records (User.favorites u)
                    end
                 /\ match UserRecord.stories profile with
                    | None => User.ownStories u = []
                    | Some records => Forall2 exposes records (User.ownStories u)
                    end
                 /\ storyIds (User.favorites u)
                    = StoryRecord.storyId <$> default [] (UserRecord.favorites profile)
                 /\ storyIds (User.ownStories u)
                    = StoryRecord.storyId <$> default [] (UserRecord.stories profile)
           | None => result = None
           end
       end.
Proof.
  rewrite loginViaStoredCredentials_exec.
  destruct (net _) as [response|err]; [|by eexists _, _].
  destruct (Axios.user _) as [profile|]; [|by eexists _, _].
  eexists _, _. do 3 (split; [reflexivity|]).
  eexists. do 6 (split; [reflexivity|]).
  destruct profile as [uname name createdAt favorites stories]. simpl.
  split; [|split; [|split]].
  - destruct favorites as [records|]; simpl; [|done].
    apply map_Story_constructor_exposes.
  - destruct stories as [records|]; simpl; [|done].
    apply map_Story_constructor_exposes.
  - unfold storyIds, Array.map. rewrite <- list_fmap_compose.
    by apply list_fmap_ext.
  - unfold storyIds, Array.map. rewrite <- list_fmap_compose.
    by apply list_fmap_ext.
Qed.

(** ** StoryList: creating and deleting a story *)

(** C2: when the delete request of [removeStory(user, storyId)] is fulfilled,
    the call completes normally and afterwards no entry of the story list's
    [stories], of [user.ownStories] or of [user.favorites] has that
    [storyId]. *)
Theorem removeStory_purges_every_collection
    (net : Axios.config -> Axios.settled) (σ : Store) (storyId : string)
    (response : Axios.response) :
  net (delete_story_request σ storyId) = Axios.Fulfilled response ->
  exists σ' : Store,
    exec net (removeStory storyId) σ = (Normal tt, σ')
    /\ (storyId ∉ storyIds (StoryList.stories (storyList σ')))
    /\ (storyId ∉ storyIds (User.ownStories (currentUser σ')))
    /\ (storyId ∉ storyIds (User.favorites (currentUser σ'))).
Proof.
  intros Hok. rewrite removeStory_exec, Hok. eexists. split; [done|].
  unfold without_story. simpl. repeat split; apply storyId_filtered_out.
Qed.

(** C3: when the request of [addStory] is rejected, the call throws the
    rejection and the store, so [stories], [user.ownStories] and
    [user.favorites], is what it was before the call; the same holds for
    [removeStory]. *)
Theorem rejected_request_changes_nothing
    (net : Axios.config -> Axios.settled) (σ : Store) (err : Exn)
    (title author url storyId : string) :
  (net (create_story_request σ title author url) = Axios.Rejected err ->
   exec net (addStory title author url) σ = (Abrupt err, σ))
  /\ (net (delete_story_request σ storyId) = Axios.Rejected err ->
      exec net (removeStory storyId) σ = (Abrupt err, σ)).
Proof.
  split; intros Hfail.
  - by rewrite addStory_exec, Hfail.
  - by rewrite removeStory_exec, Hfail.
Qed.

(** C4: for a user with a login token, when the create request of
    [addStory(user, {title, author, url})] (which carries that token) is
    fulfilled with a story record, the call returns the [Story] made from
    that record; it is then the first element of [stories] and of
    [user.ownStories], the elements that were there follow in their order,
    and [user.favorites] is unchanged. *)
Theorem addStory_puts_new_story_first
    (net : Axios.config -> Axios.settled) (σ : Store)
    (title author url token : string)
    (response : Axios.response) (record : StoryRecord.t) :
  User.loginToken (currentUser σ) = Some token ->
  net {| Axios.url := BASE_URL +:+ "/stories";
         Axios.method := Axios.POST;
         Axios.data := Axios.data_token_story (Some token) title author url;
         Axios.params := None |} = Axios.Fulfilled response ->
  Axios.story (Axios.response_data response) = Some record ->
  exists (story : Story.t) (σ' : Store),
    exec net (addStory title author url) σ = (Normal story, σ')
    /\ story = Story.constructor record
    /\ Story.storyId story = StoryRecord.storyId record
    /\ StoryList.stories (storyList σ')
       = story :: StoryList.stories (storyList σ)
    /\ User.ownStories (currentUser σ')
       = story :: User.ownStories (currentUser σ)
    /\ User.favorites (currentUser σ') = User.favorites (currentUser σ).
Proof.
  intros Htoken Hok Hrecord. rewrite addStory_exec.
  unfold create_story_request. rewrite Htoken, Hok, Hrecord.
  by eexists _, _.
Qed.

(** ** User: favorites *)

Lemma _addOrRemoveFavorite_run newState story σ :
  exists k,
    run (_addOrRemoveFavorite newState story) σ
    = Suspended
        (favorite_request
           (if newState === "add" then Axios.POST else Axios.DELETE) story σ)
        σ k
    /\ passes_on_settlement k.
Proof.
  unfold _addOrRemoveFavorite. js_steps. eexists. split; [reflexivity|].
  intros [response|err] σ'; reflexivity.
Qed.

Lemma addFavorite_run story σ :
  exists k,
    run (addFavorite story) σ
    = Suspended (favorite_request Axios.POST story (with_favorite story σ))
        (with_favorite story σ) k
    /\ passes_on_settlement k.
Proof.
  unfold addFavorite. js_steps.
  destruct (_addOrRemoveFavorite_run "add" story (with_favorite story σ))
    as (k & Hrun & Hk).
  exact (ex_intro _ k (conj Hrun Hk)).
Qed.

Lemma removeFavorite_run story σ :
  exists k,
    run (removeFavorite story) σ
    = Suspended (favorite_request Axios.DELETE story (without_favorite story σ))
        (without_favorite story σ) k
    /\ passes_on_settlement k.
Proof.
  unfold removeFavorite. js_steps.
  destruct (_addOrRemoveFavorite_run "remove" story (without_favorite story σ))
    as (k & Hrun & Hk).
  exact (ex_intro _ k (conj Hrun Hk)).
Qed.

Lemma addFavorite_exec net story σ :
  exec net (addFavorite story) σ
  = (match net (favorite_request Axios.POST story (with_favorite story σ)) with
     | Axios.Fulfilled _ => Normal tt
     | Axios.Rejected err => Abrupt err
     end, with_favorite story σ).
Proof.
  rewrite exec_run. destruct (addFavorite_run story σ) as (k & -> & Hk).
  rewrite exec_run, Hk. by destruct (net _).
Qed.

Lemma removeFavorite_exec net story σ :
  exec net (removeFavorite story) σ
  = (match net (favorite_request Axios.DELETE story (without_favorite story σ)) with
     | Axios.Fulfilled _ => Normal tt
     | Axios.Rejected err => Abrupt err
     end, without_favorite story σ).
Proof.
  rewrite exec_run. destruct (removeFavorite_run story σ) as (k & -> & Hk).
  rewrite exec_run, Hk. by destruct (net _).
Qed.

(** C5: [addFavorite(story)] has appended [story] to [favorites] when it
    suspends on its request, and [removeFavorite(story)] has by then dropped
    every entry with the [storyId] of [story] and nothing else; when the
    request is then rejected the call throws the rejection and [favorites]
    stays as the local step left it. *)
Theorem favorites_change_before_request_and_stay
    (net : Axios.config -> Axios.settled) (σ : Store) (story : Story.t) :
  (exists c σ1 k,
      run (addFavorite story) σ = Suspended c σ1 k
      /\ c = favorite_request Axios.POST story σ1
      /\ User.favorites (currentUser σ1)
         = (User.favorites (currentUser σ) ++ [story])%list
      /\ (forall err σ', run (k (Axios.Rejected err)) σ' = Thrown err σ')
      /\ (forall err, net c = Axios.Rejected err ->
            exec net (addFavorite story) σ = (Abrupt err, σ1)))
  /\ (exists c σ1 k,
      run (removeFavorite story) σ = Suspended c σ1 k
      /\ c = favorite_request Axios.DELETE story σ1
      /\ User.favorites (currentUser σ1)
         = Array.filter (fun s => Story.storyId s !== Story.storyId story)
             (User.favorites (currentUser σ))
      /\ (forall s, s ∈ User.favorites (currentUser σ1) <->
            s ∈ User.favorites (currentUser σ)
            /\ Story.storyId s <> Story.storyId story)
      /\ (forall err σ', run (k (Axios.Rejected err)) σ' = Thrown err σ')
      /\ (forall err, net c = Axios.Rejected err ->
            exec net (removeFavorite story) σ = (Abrupt err, σ1))).
Proof.
  split.
  - destruct (addFavorite_run story σ) as (k & Hrun & Hk).
    eexists _, _, k. split; [exact Hrun|]. do 2 (split; [reflexivity|]). split.
    + intros err σ'. apply (Hk (Axios.Rejected err)).
    + intros err Hfail. by rewrite addFavorite_exec, Hfail.
  - destruct (removeFavorite_run story σ) as (k & Hrun & Hk).
    eexists _, _, k. split; [exact Hrun|]. do 2 (split; [reflexivity|]).
    split; [|split].
    + intros s. simpl. rewrite elem_of_Array_filter, strict_ne_true. tauto.
    + intros err σ'. apply (Hk (Axios.Rejected err)).
    + intros err Hfail. by rewrite removeFavorite_exec, Hfail.
Qed.

Lemma finish_passes_on k r σ : passes_on_settlement k -> finish k r σ = Some σ.
Proof. intros Hk. unfold finish. rewrite Hk. by destruct r. Qed.

(** C9: for a story that is not in [favorites], after [addFavorite(story)] and
    then [removeFavorite(story)] have both been issued, and whichever of the
    two requests settles first and however each settles, [favorites] has no
    entry with the [storyId] of the story: it is what it was before the two
    calls. *)
Theorem add_then_remove_favorite_leaves_none
    (σ : Store) (story : Story.t)
    (add_settles_first : bool) (r_add r_remove : Axios.settled) :
  Story.storyId story ∉ storyIds (User.favorites (currentUser σ)) ->
  exists σ' : Store,
    issue_both_then_settle (addFavorite story) (removeFavorite story)
      add_settles_first r_add r_remove σ = Some σ'
    /\ (Story.storyId story ∉ storyIds (User.favorites (currentUser σ')))
    /\ User.favorites (currentUser σ') = User.favorites (currentUser σ).
Proof.
  intros Habsent. unfold issue_both_then_settle.
  destruct (addFavorite_run story σ) as (k1 & -> & Hk1).
  destruct (removeFavorite_run story (with_favorite story σ)) as (k2 & -> & Hk2).
  set (σ2 := without_favorite story (with_favorite story σ)).
  exists σ2. split.
  - destruct add_settles_first; simpl;
      rewrite ?(finish_passes_on k1), ?(finish_passes_on k2); simpl;
      rewrite ?(finish_passes_on k1), ?(finish_passes_on k2); done.
  - split; [apply storyId_filtered_out|].
    subst σ2. unfold without_favorite, with_favorite. simpl.
    rewrite Array_filter_push, filter_absent_storyId by done.
    by rewrite (proj2 (strict_ne_false _ _) eq_refl).
Qed.

(** ** The User invariant *)

Lemma isFavorite_false_absent σ story :
  run (isFavorite story) σ = Returned false σ ->
  Story.storyId story ∉ storyIds (User.favorites (currentUser σ)).
Proof.
  unfold isFavorite. js_steps. intros Hrun.
  assert (Array.some (fun s => Story.storyId s === Story.storyId story)
            (User.favorites (currentUser σ)) = false) as Hsome
    by (cbn [run] in Hrun; congruence).
  rewrite Array_some_false in Hsome. unfold storyIds. intros Hin.
  apply list_elem_of_fmap in Hin as (s & Heq & Hs).
  specialize (Hsome s Hs). symmetry in Heq.
  apply strict_eq_true in Heq. congruence.
Qed.

Lemma storyIds_map_constructor records :
  storyIds (Array.map Story.constructor records)
  = StoryRecord.storyId <$> records.
Proof.
  unfold storyIds, Array.map. rewrite <- list_fmap_compose.
  by apply list_fmap_ext.
Qed.

(** The constructor gives collections without duplicates when the records
    it is given have none. *)
Lemma User_constructor_invariant d token :
  NoDup (StoryRecord.storyId <$> default [] (UserData.favorites d)) ->
  NoDup (StoryRecord.storyId <$> default [] (UserData.ownStories d)) ->
  User_invariant (User.constructor d token).
Proof.
  intros Hfav Hown. unfold User_invariant, no_duplicate_storyId. simpl.
  by rewrite !storyIds_map_constructor.
Qed.

(** C1, as the code has it: [removeFavorite] and [removeStory] keep
    [favorites] and [ownStories] free of duplicate [storyId]s for every user;
    [addFavorite(story)] keeps [favorites] free of them for every story for
    which [isFavorite(story)] is false, and does not touch [ownStories];
    [addStory] keeps the invariant when the [storyId] of the record the
    server answers with is not already in [ownStories]. *)
Theorem operations_preserve_User_invariant
    (net : Axios.config -> Axios.settled) (σ : Store)
    (story : Story.t) (storyId title author url : string) :
  (no_duplicate_storyId (User.favorites (currentUser σ)) ->
   run (isFavorite story) σ = Returned false σ ->
   let σ' := (exec net (addFavorite story) σ).2 in
   no_duplicate_storyId (User.favorites (currentUser σ'))
   /\ User.ownStories (currentUser σ') = User.ownStories (currentUser σ))
  /\ (no_duplicate_storyId (User.favorites (currentUser σ)) ->
      let σ' := (exec net (removeFavorite story) σ).2 in
      no_duplicate_storyId (User.favorites (currentUser σ'))
      /\ User.ownStories (currentUser σ') = User.ownStories (currentUser σ))
  /\ (User_invariant (currentUser σ) ->
      User_invariant (currentUser (exec net (removeStory storyId) σ).2))
  /\ (User_invariant (currentUser σ) ->
      (forall response record,
         net (create_story_request σ title author url) = Axios.Fulfilled response ->
         Axios.story (Axios.response_data response) = Some record ->
         StoryRecord.storyId record ∉ storyIds (User.ownStories (currentUser σ))) ->
      User_invariant (currentUser (exec net (addStory title author url) σ).2)).
Proof.
  split; [|split; [|split]].
  - intros Hfav Hnot. rewrite addFavorite_exec. simpl. split; [|done].
    apply no_duplicate_storyId_push; [done|].
    by apply isFavorite_false_absent.
  - intros Hfav. rewrite removeFavorite_exec. simpl. split; [|done].
    by apply no_duplicate_storyId_filter.
  - intros [Hfav Hown]. rewrite removeStory_exec.
    destruct (net _) as [response|err]; [|done].
    split; simpl; by apply no_duplicate_storyId_filter.
  - intros [Hfav Hown] Hfresh. rewrite addStory_exec.
    destruct (net _) as [response|err] eqn:Hnet; [|done].
    destruct (Axios.story _) as [record|] eqn:Hrecord; [|done].
    split; simpl; [done|].
    apply no_duplicate_storyId_unshift; [done|]. simpl. eauto.
Qed.

(** ** The methods on the concrete session *)

Example getStories_wraps_in_server_order :
  exec (fun _ => Axios.Fulfilled
          {| Axios.response_data :=
               {| Axios.stories := Some [record_1; record_2];
                  Axios.story := None; Axios.user := None;
                  Axios.token := None |} |})
    getStories session
  = (Normal (StoryList.constructor [story_1; story_2]), session).
Proof. reflexivity. Qed.

Example removeFavorite_twice_is_local_noop :
  User.favorites
    (currentUser (exec network_down (removeFavorite story_2)
       (exec network_down (removeFavorite story_2) session).2).2)
  = User.favorites (currentUser session).
Proof. reflexivity. Qed.

(** C1, as stated, fails: alice's [favorites] holds [story_1] once;
    [addFavorite(story_1)] pushes it again, and [favorites] then has two
    entries with its [storyId].  Likewise [addStory] inserts whatever record the
    server answers with: one that carries a [storyId] of [ownStories] gives
    two entries with it. *)
Lemma addFavorite_of_a_favorite_duplicates_it :
  (no_duplicate_storyId (User.favorites (currentUser session))
   /\ User.favorites
        (currentUser (exec (server_answers record_3) (addFavorite story_1) session).2)
      = [story_1; story_1]
   /\ entries_with "story-1"
        (User.favorites
           (currentUser
              (exec (server_answers record_3) (addFavorite story_1) session).2))
      = 2
   /\ ~ no_duplicate_storyId
        (User.favorites
           (currentUser
              (exec (server_answers record_3) (addFavorite story_1) session).2)))
  /\ (User_invariant (currentUser session)
      /\ ~ User_invariant
           (currentUser
              (exec (server_answers record_1) (addStory "t" "a" "u") session).2)).
Proof.
  repeat split; try reflexivity; compute_done.
Qed.

(** ** The theorems on the concrete session *)

Lemma operations_preserve_User_invariant_session :
  (no_duplicate_storyId (User.favorites (currentUser session))
   /\ run (isFavorite story_2) session = Returned false session
   /\ User_invariant (currentUser session))
  /\ no_duplicate_storyId
       (User.favorites
          (currentUser
             (exec (server_answers record_3) (addFavorite story_2) session).2))
  /\ no_duplicate_storyId
       (User.favorites
          (currentUser
             (exec (server_answers record_3) (removeFavorite story_2) session).2))
  /\ User_invariant
       (currentUser (exec (server_answers record_3) (removeStory "story-1") session).2)
  /\ User_invariant
       (currentUser
          (exec (server_answers record_3)
             (addStory "Fresh" "C. Arol" "https://example.com/fresh") session).2).
Proof.
  assert (no_duplicate_storyId (User.favorites (currentUser session))) as Hfav
    by compute_done.
  assert (User_invariant (currentUser session)) as Hinv by compute_done.
  destruct (operations_preserve_User_invariant (server_answers record_3) session
              story_2 "story-1" "Fresh" "C. Arol" "https://example.com/fresh")
    as (Hadd & Hremove & Hdelete & Hcreate).
  split; [repeat split; [exact Hfav | apply Hinv | apply Hinv]|].
  split; [exact (proj1 (Hadd Hfav eq_refl))|].
  split; [exact (proj1 (Hremove Hfav))|].
  split; [exact (Hdelete Hinv)|].
  apply (Hcreate Hinv). intros response record Hnet Hrecord.
  injection Hnet as <-. injection Hrecord as <-. compute_done.
Defined.

Lemma removeStory_purges_session :
  server_answers record_3 (delete_story_request session "story-1")
  = Axios.Fulfilled (answer record_3)
  /\ exists σ' : Store,
       exec (server_answers record_3) (removeStory "story-1") session
       = (Normal tt, σ')
       /\ ("story-1" ∉ storyIds (StoryList.stories (storyList σ')))
       /\ ("story-1" ∉ storyIds (User.ownStories (currentUser σ')))
       /\ ("story-1" ∉ storyIds (User.favorites (currentUser σ'))).
Proof.
  split; [reflexivity|].
  exact (removeStory_purges_every_collection (server_answers record_3) session
           "story-1" _ eq_refl).
Defined.

Lemma rejected_request_changes_nothing_session :
  exec network_down (addStory "Fresh" "C. Arol" "https://example.com/fresh") session
  = (Abrupt (AxiosError "Network Error"), session)
  /\ exec network_down (removeStory "story-1") session
     = (Abrupt (AxiosError "Network Error"), session).
Proof.
  destruct (rejected_request_changes_nothing network_down session
              (AxiosError "Network Error")
              "Fresh" "C. Arol" "https://example.com/fresh" "story-1")
    as [Hcreate Hdelete].
  split; [exact (Hcreate eq_refl) | exact (Hdelete eq_refl)].
Defined.

Lemma addStory_puts_new_story_first_session :
  User.loginToken (currentUser session) = Some "token-alice"
  /\ exists (story : Story.t) (σ' : Store),
       exec (server_answers record_3)
         (addStory "Fresh" "C. Arol" "https://example.com/fresh") session
       = (Normal story, σ')
       /\ story = Story.constructor record_3
       /\ Story.storyId story = "story-3"
       /\ StoryList.stories (storyList σ') = [story; story_1; story_2]
       /\ User.ownStories (currentUser σ') = [story; story_1]
       /\ User.favorites (currentUser σ') = [story_1].
Proof.
  split; [reflexivity|].
  exact (addStory_puts_new_story_first (server_answers record_3) session
           "Fresh" "C. Arol" "https://example.com/fresh" "token-alice"
           _ record_3 eq_refl eq_refl eq_refl).
Defined.

Lemma favorites_change_before_request_and_stay_session :
  (exists σ1 : Store,
      exec network_down (addFavorite story_2) session
      = (Abrupt (AxiosError "Network Error"), σ1)
      /\ User.favorites (currentUser σ1) = [story_1; story_2])
  /\ (exists σ1 : Store,
      exec network_down (removeFavorite story_1) session
      = (Abrupt (AxiosError "Network Error"), σ1)
      /\ User.favorites (currentUser σ1) = []).
Proof.
  split.
  - destruct (favorites_change_before_request_and_stay network_down session story_2)
      as [(c & σ1 & k & Hrun & Hc & Hfav & Hk & Hexec) _].
    exists σ1. split; [exact (Hexec _ eq_refl) | exact Hfav].
  - destruct (favorites_change_before_request_and_stay network_down session story_1)
      as [_ (c & σ1 & k & Hrun & Hc & Hfav & Hin & Hk & Hexec)].
    exists σ1. split; [exact (Hexec _ eq_refl) | exact Hfav].
Defined.

Lemma getHostName_session :
  run (@getHostName example_platform story_1) session
  = Returned "example.org:8080" session
  /\ run (@getHostName example_platform story_2) session
     = Thrown (TypeError "Invalid URL") session
  /\ @getHostName example_platform
       (Story.mk "story-9" "Other" "D. Ee" "https://example.org:8080/itrees"
          "dee" "2024-01-01T00:00:00.000Z")
     = @getHostName example_platform story_1.
Proof.
  split; [|split].
  - exact (proj1 (@getHostName_is_host_of_url example_platform story_1 session)).
  - exact (proj1 (@getHostName_is_host_of_url example_platform story_2 session)).
  - exact (proj2 (@getHostName_is_host_of_url example_platform story_1 session)
             _ eq_refl).
Defined.

Lemma add_then_remove_favorite_session :
  (Story.storyId story_2 ∉ storyIds (User.favorites (currentUser session)))
  /\ exists σ' : Store,
       issue_both_then_settle (addFavorite story_2) (removeFavorite story_2)
         false (Axios.Rejected (AxiosError "Network Error"))
         (server_answers record_3
            (favorite_request Axios.DELETE story_2 session)) session
       = Some σ'
       /\ (Story.storyId story_2 ∉ storyIds (User.favorites (currentUser σ')))
       /\ User.favorites (currentUser σ') = User.favorites (currentUser session).
Proof.
  assert (Story.storyId story_2 ∉ storyIds (User.favorites (currentUser session)))
    as Habsent by compute_done.
  split; [exact Habsent|].
  exact (add_then_remove_favorite_leaves_none session story_2 false _ _ Habsent).
Defined.

(** ** Further properties: the static methods *)

Lemma getStories_exec net σ :
  exec net getStories σ
  = match net stories_request with
    | Axios.Rejected err => (Abrupt err, σ)
    | Axios.Fulfilled response =>
        match Axios.stories (Axios.response_data response) with
        | Some records =>
            (Normal (StoryList.constructor (Array.map Story.constructor records)),
             σ)
        | None =>
            (Abrupt (TypeError ("Cannot read properties of undefined: " +:+ "map")),
             σ)
        end
    end.
Proof.
  unfold getStories, stories_request. js_steps.
  destruct (net _) as [response|err]; [|done]. js_steps.
  by destruct (Axios.stories _).
Qed.

Lemma login_exec net σ username password :
  exec net (login username password) σ
  = match net (login_request username password) with
    | Axios.Rejected err => (Abrupt err, σ)
    | Axios.Fulfilled response =>
        match Axios.user (Axios.response_data response) with
        | Some user =>
            (Normal (User.constructor (user_data user)
                       (Axios.token (Axios.response_data response))), σ)
        | None =>
            (Abrupt (TypeError
               ("Cannot read properties of undefined: " +:+ "username")), σ)
        end
    end.
Proof.
  unfold login, login_request. js_steps.
  destruct (net _) as [response|err]; [|done]. js_steps.
  by destruct (Axios.user _).
Qed.

Lemma signup_exec net σ username password name :
  exec net (signup username password name) σ
  = match net (signup_request username password name) with
    | Axios.Rejected err => (Abrupt err, σ)
    | Axios.Fulfilled response =>
        match Axios.user (Axios.response_data response) with
        | Some user =>
            (Normal (User.constructor (user_data user)
                       (Axios.token (Axios.response_data response))), σ)
        | None =>
            (Abrupt (TypeError
               ("Cannot read properties of undefined: " +:+ "username")), σ)
        end
    end.
Proof.
  unfold signup, signup_request. js_steps.
  destruct (net _) as [response|err]; [|done]. js_steps.
  by destruct (Axios.user _).
Qed.

(** X1: [getStories()] sends one unauthenticated [GET /stories].  A rejection
    is thrown to the caller; a response without [stories] throws a
    [TypeError]; otherwise the result has one [Story] per record of the
    response, in the server's order and with its fields, so also the same
    [storyId]s, duplicates included.  In every case the store is untouched. *)
Theorem getStories_wraps_records_in_server_order
    (net : Axios.config -> Axios.settled) (σ : Store) :
  match net stories_request with
  | Axios.Rejected err => exec net getStories σ = (Abrupt err, σ)
  | Axios.Fulfilled response =>
      match Axios.stories (Axios.response_data response) with
      | Some records =>
          exists list : StoryList.t,
            exec net getStories σ = (Normal list, σ)
            /\ Forall2 exposes records (StoryList.stories list)
            /\ length (StoryList.stories list) = length records
            /\ storyIds (StoryList.stories list)
               = StoryRecord.storyId <$> records
      | None =>
          exists message, exec net getStories σ = (Abrupt (TypeError message), σ)
      end
  end.
Proof.
  rewrite getStories_exec. destruct (net _) as [response|err]; [|done].
  destruct (Axios.stories _) as [records|]; [|by eexists].
  eexists. split; [done|]. simpl. split; [|split].
  - apply map_Story_constructor_exposes.
  - unfold Array.map. apply length_fmap.
  - apply storyIds_map_constructor.
Qed.

(** X2: [login(username, password)] throws the rejection of its request and
    throws a [TypeError] on a response without [user]: unlike
    [loginViaStoredCredentials] it catches nothing.  On a response with a
    user it returns a [User] with the profile's name fields, whose
    [loginToken] is the response's [token] (absent when the response has
    none), whose [ownStories] come from the profile's [stories] and whose
    [favorites] from its [favorites].  The store is untouched and nothing is
    printed. *)
Theorem login_builds_user_or_throws
    (net : Axios.config -> Axios.settled) (σ : Store) (username password : string) :
  match net (login_request username password) with
  | Axios.Rejected err =>
      exec net (login username password) σ = (Abrupt err, σ)
  | Axios.Fulfilled response =>
      match Axios.user (Axios.response_data response) with
      | Some profile =>
          exists u : User.t,
            exec net (login username password) σ = (Normal u, σ)
            /\ User.username u = UserRecord.username profile
            /\ User.name u = UserRecord.name profile
            /\ User.createdAt u = UserRecord.createdAt profile
            /\ User.loginToken u = Axios.token (Axios.response_data response)
            /\ storyIds (User.ownStories u)
               = StoryRecord.storyId <$> default [] (UserRecord.stories profile)
            /\ storyIds (User.favorites u)
               = StoryRecord.storyId <$> default [] (UserRecord.favorites profile)
      | None =>
          exists message,
            exec net (login username password) σ = (Abrupt (TypeError message), σ)
      end
  end.
Proof.
  rewrite login_exec. destruct (net _) as [response|err]; [|done].
  destruct (Axios.user _) as [profile|]; [|by eexists].
  eexists. split; [done|]. simpl.
  by rewrite !storyIds_map_constructor.
Qed.

(** X3: [signup(username, password, name)] posts the three fields to
    [/signup] and then does with the answer exactly what [login] does with
    the answer to its own request: the same user, the same throw, the same
    untouched store. *)
Theorem signup_treats_answer_as_login
    (σ : Store) (username password name : string) (settles : Axios.settled) :
  (exists k,
     run (signup username password name) σ
     = Suspended (signup_request username password name) σ k)
  /\ exec (fun _ => settles) (signup username password name) σ
     = exec (fun _ => settles) (login username password) σ.
Proof.
  split.
  - unfold signup, signup_request. js_steps. by eexists.
  - by rewrite signup_exec, login_exec.
Qed.

(** X4: when the request of [addStory] is fulfilled by a response without
    [story], the call throws a [TypeError] and [stories], [ownStories] and
    [favorites] stay as they were: the insertions come after the [Story] has
    been built. *)
Theorem addStory_without_story_in_response_changes_nothing
    (net : Axios.config -> Axios.settled) (σ : Store) (title author url : string)
    (response : Axios.response) :
  net (create_story_request σ title author url) = Axios.Fulfilled response ->
  Axios.story (Axios.response_data response) = None ->
  exists message,
    exec net (addStory title author url) σ = (Abrupt (TypeError message), σ).
Proof.
  intros Hnet Hnone. rewrite addStory_exec, Hnet, Hnone. by eexists.
Qed.

(** X5: [loginViaStoredCredentials] prints through [console.error] exactly
    when it gives [null]: one line, with the error it caught (the rejection
    of the request, or the [TypeError] of a response without [user]), after
    what was printed before; on success the console is as it was. *)
Theorem loginViaStoredCredentials_logs_what_it_swallows
    (net : Axios.config -> Axios.settled) (σ : Store) (token username : string) :
  let σ' := (exec net (loginViaStoredCredentials token username) σ).2 in
  match net (get_user_request token username) with
  | Axios.Rejected err =>
      console σ'
      = (console σ ++ [("loginViaStoredCredentials failed", err)])%list
  | Axios.Fulfilled response =>
      match Axios.user (Axios.response_data response) with
      | Some _ => console σ' = console σ
      | None =>
          exists message,
            console σ'
            = (console σ
               ++ [("loginViaStoredCredentials failed", TypeError message)])%list
      end
  end.
Proof.
  cbv zeta. rewrite loginViaStoredCredentials_exec.
  destruct (net _) as [response|err]; [|done].
  destruct (Axios.user _) as [profile|]; [done|]. by eexists.
Qed.

(** ** Further properties: favorites *)

Section MoreArrayFacts.
Context {A : Type}.
Implicit Types (cb : A -> bool) (arr : list A).

Lemma Array_filter_idemp cb arr :
  Array.filter cb (Array.filter cb arr) = Array.filter cb arr.
Proof.
  apply Array_filter_all. intros x Hx. by apply elem_of_Array_filter in Hx as [? _].
Qed.

Lemma Array_filter_comm cb1 cb2 arr :
  Array.filter cb1 (Array.filter cb2 arr) = Array.filter cb2 (Array.filter cb1 arr).
Proof.
  induction arr as [|x arr IH]; [done|].
  rewrite !Array_filter_cons.
  destruct (cb1 x) eqn:H1, (cb2 x) eqn:H2;
    rewrite ?Array_filter_cons, ?H1, ?H2, ?IH; done.
Qed.
End MoreArrayFacts.

Lemma entries_with_push id stories story :
  entries_with id (Array.push stories story)
  = entries_with id stories + (if Story.storyId story === id then 1 else 0).
Proof.
  unfold entries_with. rewrite Array_filter_push.
  destruct (Story.storyId story === id); [|lia].
  unfold Array.push. rewrite length_app. simpl. lia.
Qed.

Lemma isFavorite_run story σ :
  run (isFavorite story) σ
  = Returned
      (Array.some (fun s => Story.storyId s === Story.storyId story)
         (User.favorites (currentUser σ))) σ.
Proof. unfold isFavorite. js_steps. reflexivity. Qed.

Lemma exec_addFavorite_store net story σ :
  (exec net (addFavorite story) σ).2 = with_favorite story σ.
Proof. by rewrite addFavorite_exec. Qed.

Lemma exec_removeFavorite_store net story σ :
  (exec net (removeFavorite story) σ).2 = without_favorite story σ.
Proof. by rewrite removeFavorite_exec. Qed.

(** X6: a second [removeFavorite(story)] leaves the whole store as the first
    one left it, however the two requests settle: the filter finds nothing
    more to drop. *)
Theorem removeFavorite_again_changes_nothing
    (net1 net2 : Axios.config -> Axios.settled) (σ : Store) (story : Story.t) :
  let σ1 := (exec net1 (removeFavorite story) σ).2 in
  (exec net2 (removeFavorite story) σ1).2 = σ1.
Proof.
  cbv zeta. rewrite !exec_removeFavorite_store.
  unfold without_favorite. simpl. by rewrite Array_filter_idemp.
Qed.

(** X7: [removeFavorite(story)] for a story that is not in [favorites] still
    sends its DELETE request, and leaves [favorites] as it was. *)
Theorem removeFavorite_of_a_stranger_only_sends_request
    (net : Axios.config -> Axios.settled) (σ : Store) (story : Story.t) :
  Story.storyId story ∉ storyIds (User.favorites (currentUser σ)) ->
  (exists σ1 k,
     run (removeFavorite story) σ
     = Suspended (favorite_request Axios.DELETE story σ1) σ1 k)
  /\ User.favorites (currentUser (exec net (removeFavorite story) σ).2)
     = User.favorites (currentUser σ).
Proof.
  intros Habsent. split.
  - destruct (removeFavorite_run story σ) as (k & Hrun & _). by eexists _, k.
  - rewrite exec_removeFavorite_store. simpl. by apply filter_absent_storyId.
Qed.

(** X8: right after [addFavorite(story)] the user's [isFavorite(story)] is
    true, and right after [removeFavorite(story)] it is false, also when the
    request was rejected: [isFavorite] reads the local array only. *)
Theorem isFavorite_follows_the_local_step
    (net : Axios.config -> Axios.settled) (σ : Store) (story : Story.t) :
  (let σ' := (exec net (addFavorite story) σ).2 in
   run (isFavorite story) σ' = Returned true σ')
  /\ (let σ' := (exec net (removeFavorite story) σ).2 in
      run (isFavorite story) σ' = Returned false σ').
Proof.
  cbv zeta. rewrite exec_addFavorite_store, exec_removeFavorite_store.
  rewrite !isFavorite_run. split; f_equal.
  - apply Array_some_true. exists story. split.
    + simpl. unfold Array.push. apply elem_of_app. right. by left.
    + by apply strict_eq_true.
  - apply Array_some_false. intros s Hs. simpl in Hs.
    apply elem_of_Array_filter in Hs as [Hne _].
    unfold strict_ne in Hne. by apply negb_true_iff in Hne.
Qed.

(** X9: each [addFavorite(story)] adds exactly one entry with the [storyId]
    of [story] to [favorites], whether or not there was one already, and
    changes the number of entries of no other [storyId]. *)
Theorem addFavorite_adds_one_entry
    (net : Axios.config -> Axios.settled) (σ : Store) (story : Story.t)
    (id : string) :
  entries_with id (User.favorites (currentUser (exec net (addFavorite story) σ).2))
  = entries_with id (User.favorites (currentUser σ))
    + (if Story.storyId story === id then 1 else 0).
Proof.
  rewrite exec_addFavorite_store. simpl. apply entries_with_push.
Qed.

(** X10: the local steps of two [removeFavorite] calls commute, and so do
    those of [addFavorite(a)] and [removeFavorite(b)] when [a] and [b] have
    different [storyId]s: the store is the same in either order. *)
Theorem favorite_steps_commute
    (net : Axios.config -> Axios.settled) (σ : Store) (a b : Story.t) :
  (exec net (removeFavorite b) (exec net (removeFavorite a) σ).2).2
  = (exec net (removeFavorite a) (exec net (removeFavorite b) σ).2).2
  /\ (Story.storyId a <> Story.storyId b ->
      (exec net (removeFavorite b) (exec net (addFavorite a) σ).2).2
      = (exec net (addFavorite a) (exec net (removeFavorite b) σ).2).2).
Proof.
  rewrite !exec_removeFavorite_store, !exec_addFavorite_store.
  unfold without_favorite, with_favorite. simpl. split.
  - by rewrite Array_filter_comm.
  - intros Hne. rewrite Array_filter_push.
    by rewrite (proj2 (strict_ne_true _ _) Hne).
Qed.

(** X11: the markup of [getStarHTML(story, user)] carries the class [fas]
    exactly when some entry of [user.favorites] has the [storyId] of [story],
    and the class [far] exactly when none has; building it changes
    nothing. *)
Theorem getStarHTML_star_follows_favorites (σ : Store) (story : Story.t) :
  exists html : string,
    run (getStarHTML story) σ = Returned html σ
    /\ (star_has_class "fas" html <->
        exists f, f ∈ User.favorites (currentUser σ)
                  /\ Story.storyId f = Story.storyId story)
    /\ (star_has_class "far" html <->
        ~ exists f, f ∈ User.favorites (currentUser σ)
                    /\ Story.storyId f = Story.storyId story).
Proof.
  unfold getStarHTML. rewrite run_bind, isFavorite_run. cbv beta iota zeta.
  assert ((exists f, f ∈ User.favorites (currentUser σ)
                     /\ Story.storyId f = Story.storyId story)
          <-> Array.some (fun s => Story.storyId s === Story.storyId story)
                (User.favorites (currentUser σ)) = true) as Hsome.
  { rewrite Array_some_true. split; intros (f & Hf & Heq); exists f;
      (split; [done|]); by apply strict_eq_true. }
  destruct (Array.some _ _); eexists; (split; [reflexivity|]);
    rewrite Hsome; unfold star_has_class; vm_compute; split; split;
    intros H; try done; try (by eexists); try (by destruct H).
Qed.

(** ** Further properties: the story list *)

Lemma exec_removeStory_fulfilled net σ storyId response :
  net (delete_story_request σ storyId) = Axios.Fulfilled response ->
  exec net (removeStory storyId) σ = (Normal tt, without_story storyId σ).
Proof. intros Hnet. by rewrite removeStory_exec, Hnet. Qed.

Lemma elem_of_filter_other_id (id : string) (stories : list Story.t) (s : Story.t) :
  Story.storyId s <> id ->
  s ∈ Array.filter (fun s' => Story.storyId s' !== id) stories <-> s ∈ stories.
Proof.
  intros Hne. rewrite elem_of_Array_filter, strict_ne_true. tauto.
Qed.

Lemma without_story_absent storyId σ :
  storyId ∉ storyIds (StoryList.stories (storyList σ)) ->
  storyId ∉ storyIds (User.ownStories (currentUser σ)) ->
  storyId ∉ storyIds (User.favorites (currentUser σ)) ->
  without_story storyId σ = σ.
Proof.
  intros Hstories Hown Hfav. unfold without_story. cbv zeta.
  destruct σ as [[stories] [username name createdAt favorites ownStories token] out].
  simpl in *. unfold set_currentUser, set_storyList, User.set_favorites,
    User.set_ownStories. simpl.
  by rewrite !filter_absent_storyId.
Qed.

Lemma Array_filter_other_ids (id : string) (stories : list Story.t) :
  Array.filter (fun s => Story.storyId s !== id) stories
  = base.filter (fun s => Story.storyId s <> id) stories.
Proof.
  induction stories as [|s stories IH]; [done|].
  rewrite Array_filter_cons, filter_cons, IH.
  destruct (Story.storyId s !== id) eqn:E; case_decide; try done.
  - apply strict_ne_true in E. done.
  - apply strict_ne_false in E. done.
Qed.

Lemma entries_with_filter_other_id (id other : string) (stories : list Story.t) :
  other <> id ->
  entries_with other (Array.filter (fun s => Story.storyId s !== id) stories)
  = entries_with other stories.
Proof.
  intros Hne. induction stories as [|s stories IH]; [done|].
  rewrite Array_filter_cons. destruct (Story.storyId s !== id) eqn:E.
  - by rewrite !entries_with_cons, IH.
  - rewrite entries_with_cons, IH. apply strict_ne_false in E.
    destruct (Story.storyId s === other) eqn:E'; [|done].
    apply strict_eq_true in E'. congruence.
Qed.

(** X12: a fulfilled [removeStory(user, storyId)] drops nothing but the
    entries with that [storyId]: each of [stories], [ownStories] and
    [favorites] is afterwards the list it was with exactly the entries of
    that [storyId] taken out.  So the stories with another [storyId] stay, in
    the order they had, and every other [storyId] has as many entries as
    before. *)
Theorem removeStory_keeps_the_other_stories
    (net : Axios.config -> Axios.settled) (σ : Store) (storyId : string)
    (response : Axios.response) :
  net (delete_story_request σ storyId) = Axios.Fulfilled response ->
  let σ' := (exec net (removeStory storyId) σ).2 in
  (forall s : Story.t, Story.storyId s <> storyId ->
     (s ∈ StoryList.stories (storyList σ') <-> s ∈ StoryList.stories (storyList σ))
     /\ (s ∈ User.ownStories (currentUser σ') <-> s ∈ User.ownStories (currentUser σ))
     /\ (s ∈ User.favorites (currentUser σ') <-> s ∈ User.favorites (currentUser σ)))
  /\ sublist (StoryList.stories (storyList σ')) (StoryList.stories (storyList σ))
  /\ sublist (User.ownStories (currentUser σ')) (User.ownStories (currentUser σ))
  /\ sublist (User.favorites (currentUser σ')) (User.favorites (currentUser σ))
  /\ StoryList.stories (storyList σ')
     = base.filter (fun s => Story.storyId s <> storyId)
         (StoryList.stories (storyList σ))
  /\ User.ownStories (currentUser σ')
     = base.filter (fun s => Story.storyId s <> storyId)
         (User.ownStories (currentUser σ))
  /\ User.favorites (currentUser σ')
     = base.filter (fun s => Story.storyId s <> storyId)
         (User.favorites (currentUser σ))
  /\ (forall other : string, other <> storyId ->
        entries_with other (StoryList.stories (storyList σ'))
        = entries_with other (StoryList.stories (storyList σ))
        /\ entries_with other (User.ownStories (currentUser σ'))
           = entries_with other (User.ownStories (currentUser σ))
        /\ entries_with other (User.favorites (currentUser σ'))
           = entries_with other (User.favorites (currentUser σ))).
Proof.
  intros Hnet. cbv zeta. rewrite (exec_removeStory_fulfilled _ _ _ _ Hnet).
  unfold without_story. cbv zeta.
  cbn [snd storyList currentUser set_storyList set_currentUser StoryList.stories
       User.set_favorites User.set_ownStories User.favorites User.ownStories].
  split; [|split; [|split; [|split; [|split; [|split; [|split]]]]]].
  - intros s Hne. repeat split; by apply elem_of_filter_other_id.
  - apply Array_filter_sublist.
  - apply Array_filter_sublist.
  - apply Array_filter_sublist.
  - apply Array_filter_other_ids.
  - apply Array_filter_other_ids.
  - apply Array_filter_other_ids.
  - intros other Hne. repeat split; by apply entries_with_filter_other_id.
Qed.

(** X13: [removeStory(user, storyId)] for an id that none of the three
    collections holds leaves the store as it was, whether its request is
    fulfilled or rejected. *)
Theorem removeStory_of_unknown_id_changes_nothing
    (net : Axios.config -> Axios.settled) (σ : Store) (storyId : string) :
  storyId ∉ storyIds (StoryList.stories (storyList σ)) ->
  storyId ∉ storyIds (User.ownStories (currentUser σ)) ->
  storyId ∉ storyIds (User.favorites (currentUser σ)) ->
  (exec net (removeStory storyId) σ).2 = σ.
Proof.
  intros Hstories Hown Hfav. rewrite removeStory_exec.
  destruct (net _) as [response|err]; [|done].
  by apply without_story_absent.
Qed.

(** X14: [addStory] followed by [removeStory] of the [storyId] of the story
    it returned gives back the store the two calls started from, when both
    requests are fulfilled and that [storyId] was in none of the three
    collections. *)
Theorem addStory_then_removeStory_restores_the_store
    (net1 net2 : Axios.config -> Axios.settled) (σ : Store)
    (title author url : string)
    (created deleted : Axios.response) (record : StoryRecord.t) :
  let σ1 := (exec net1 (addStory title author url) σ).2 in
  net1 (create_story_request σ title author url) = Axios.Fulfilled created ->
  Axios.story (Axios.response_data created) = Some record ->
  net2 (delete_story_request σ1 (StoryRecord.storyId record))
  = Axios.Fulfilled deleted ->
  StoryRecord.storyId record ∉ storyIds (StoryList.stories (storyList σ)) ->
  StoryRecord.storyId record ∉ storyIds (User.ownStories (currentUser σ)) ->
  StoryRecord.storyId record ∉ storyIds (User.favorites (currentUser σ)) ->
  (exec net2 (removeStory (StoryRecord.storyId record)) σ1).2 = σ.
Proof.
  cbv zeta. rewrite addStory_exec. intros -> ->. cbn [snd].
  intros Hdel Hstories Hown Hfav.
  rewrite (exec_removeStory_fulfilled _ _ _ _ Hdel). cbn [snd].
  rewrite <- (without_story_absent (StoryRecord.storyId record) σ) at 2 by done.
  unfold without_story, with_new_story. cbv zeta.
  unfold set_currentUser, set_storyList, User.set_favorites, User.set_ownStories,
    Array.unshift. cbn [storyList currentUser console StoryList.stories
    User.favorites User.ownStories User.username User.name User.createdAt
    User.loginToken].
  rewrite !Array_filter_cons.
  change (Story.storyId (Story.constructor record))
    with (StoryRecord.storyId record).
  by rewrite (proj2 (strict_ne_false _ _) eq_refl).
Qed.

(** X15: [stories] of the story list stays free of duplicate [storyId]s under
    [removeStory]; [addFavorite] and [removeFavorite] do not touch the story
    list; [addStory] keeps [stories] free of duplicates when the [storyId]
    the server answers with is not in [stories] yet. *)
Theorem operations_preserve_unique_stories
    (net : Axios.config -> Axios.settled) (σ : Store)
    (story : Story.t) (storyId title author url : string) :
  no_duplicate_storyId (StoryList.stories (storyList σ)) ->
  no_duplicate_storyId
    (StoryList.stories (storyList (exec net (removeStory storyId) σ).2))
  /\ storyList (exec net (addFavorite story) σ).2 = storyList σ
  /\ storyList (exec net (removeFavorite story) σ).2 = storyList σ
  /\ ((forall response record,
         net (create_story_request σ title author url) = Axios.Fulfilled response ->
         Axios.story (Axios.response_data response) = Some record ->
         StoryRecord.storyId record ∉ storyIds (StoryList.stories (storyList σ))) ->
      no_duplicate_storyId
        (StoryList.stories (storyList (exec net (addStory title author url) σ).2))).
Proof.
  intros Hunique. split; [|split; [|split]].
  - rewrite removeStory_exec. destruct (net _) as [response|err]; [|done].
    simpl. by apply no_duplicate_storyId_filter.
  - by rewrite exec_addFavorite_store.
  - by rewrite exec_removeFavorite_store.
  - intros Hfresh. rewrite addStory_exec.
    destruct (net _) as [response|err] eqn:Hnet; [|done].
    destruct (Axios.story _) as [record|] eqn:Hrecord; [|done].
    simpl. apply no_duplicate_storyId_unshift; [done|]. simpl. eauto.
Qed.

(** X16: [removeStory] filters the collections as they are when its request
    settles, not as they were when it was called: whatever store the
    fulfilled call resumes in, afterwards no collection has an entry with the
    [storyId], and every story with another [storyId] that was in a
    collection then is still in it. *)
Theorem removeStory_purges_the_store_it_resumes_in (σ : Store) (storyId : string) :
  exists k,
    run (removeStory storyId) σ = Suspended (delete_story_request σ storyId) σ k
    /\ forall (response : Axios.response) (σ1 : Store),
         exists σ2 : Store,
           run (k (Axios.Fulfilled response)) σ1 = Returned tt σ2
           /\ (storyId ∉ storyIds (StoryList.stories (storyList σ2)))
           /\ (storyId ∉ storyIds (User.ownStories (currentUser σ2)))
           /\ (storyId ∉ storyIds (User.favorites (currentUser σ2)))
           /\ forall s : Story.t, Story.storyId s <> storyId ->
                (s ∈ StoryList.stories (storyList σ1) ->
                 s ∈ StoryList.stories (storyList σ2))
                /\ (s ∈ User.ownStories (currentUser σ1) ->
                    s ∈ User.ownStories (currentUser σ2))
                /\ (s ∈ User.favorites (currentUser σ1) ->
                    s ∈ User.favorites (currentUser σ2)).
Proof.
  destruct (removeStory_run σ storyId) as (k & Hrun & Hk).
  exists k. split; [exact Hrun|]. intros response σ1.
  exists (without_story storyId σ1). split; [apply Hk|].
  unfold without_story. simpl.
  do 3 (split; [apply storyId_filtered_out|]).
  intros s Hne. repeat split; intros Hs; by apply elem_of_filter_other_id.
Qed.

(** X17: two [addStory] calls in flight insert their stories in the order in
    which their requests are fulfilled, not in the order of the calls: the
    story of the request fulfilled last is first in [stories] and in
    [ownStories]. *)
Theorem addStory_calls_insert_in_settling_order
    (σ : Store) (title1 author1 url1 title2 author2 url2 : string)
    (response1 response2 : Axios.response) (record1 record2 : StoryRecord.t) :
  Axios.story (Axios.response_data response1) = Some record1 ->
  Axios.story (Axios.response_data response2) = Some record2 ->
  exists k1 k2,
    run (addStory title1 author1 url1) σ
    = Suspended (create_story_request σ title1 author1 url1) σ k1
    /\ run (addStory title2 author2 url2) σ
       = Suspended (create_story_request σ title2 author2 url2) σ k2
    /\ (let σ' :=
          store_of (run (k1 (Axios.Fulfilled response1))
                      (store_of (run (k2 (Axios.Fulfilled response2)) σ))) in
        StoryList.stories (storyList σ')
        = Story.constructor record1 :: Story.constructor record2
            :: StoryList.stories (storyList σ)
        /\ User.ownStories (currentUser σ')
           = Story.constructor record1 :: Story.constructor record2
               :: User.ownStories (currentUser σ))
    /\ (let σ' :=
          store_of (run (k2 (Axios.Fulfilled response2))
                      (store_of (run (k1 (Axios.Fulfilled response1)) σ))) in
        StoryList.stories (storyList σ')
        = Story.constructor record2 :: Story.constructor record1
            :: StoryList.stories (storyList σ)
        /\ User.ownStories (currentUser σ')
           = Story.constructor record2 :: Story.constructor record1
               :: User.ownStories (currentUser σ)).
Proof.
  intros Hrecord1 Hrecord2.
  destruct (addStory_run σ title1 author1 url1) as (k1 & Hrun1 & Hk1).
  destruct (addStory_run σ title2 author2 url2) as (k2 & Hrun2 & Hk2).
  exists k1, k2. split; [exact Hrun1|]. split; [exact Hrun2|].
  cbv zeta. split.
  - rewrite (proj2 (Hk2 σ) _ _ Hrecord2). cbn [store_of].
    rewrite (proj2 (Hk1 _) _ _ Hrecord1). by cbn [store_of].
  - rewrite (proj2 (Hk1 σ) _ _ Hrecord1). cbn [store_of].
    rewrite (proj2 (Hk2 _) _ _ Hrecord2). by cbn [store_of].
Qed.

(** X18: the [User] constructor keeps the [storyId]s of the records it is
    given, in their order, duplicates included: the user it builds has
    [favorites] and [ownStories] free of duplicate [storyId]s exactly when
    the two lists of records are. *)
Theorem User_constructor_keeps_storyIds (d : UserData.t) (token : option string) :
  let u := User.constructor d token in
  storyIds (User.favorites u)
  = StoryRecord.storyId <$> default [] (UserData.favorites d)
  /\ storyIds (User.ownStories u)
     = StoryRecord.storyId <$> default [] (UserData.ownStories d)
  /\ (User_invariant u <->
      NoDup (StoryRecord.storyId <$> default [] (UserData.favorites d))
      /\ NoDup (StoryRecord.storyId <$> default [] (UserData.ownStories d))).
Proof.
  cbv zeta. unfold User_invariant, no_duplicate_storyId. simpl.
  by rewrite !storyIds_map_constructor.
Qed.

(** ** The further properties on the concrete session *)

Lemma addStory_without_story_in_response_session :
  server_acknowledges (create_story_request session "t" "a" "u")
  = Axios.Fulfilled empty_answer
  /\ exists message,
       exec server_acknowledges (addStory "t" "a" "u") session
       = (Abrupt (TypeError message), session).
Proof.
  split; [reflexivity|].
  exact (addStory_without_story_in_response_changes_nothing server_acknowledges
           session "t" "a" "u" empty_answer eq_refl eq_refl).
Defined.

Lemma removeFavorite_of_a_stranger_session :
  (Story.storyId story_2 ∉ storyIds (User.favorites (currentUser session)))
  /\ User.favorites
       (currentUser (exec network_down (removeFavorite story_2) session).2)
     = [story_1].
Proof.
  assert (Story.storyId story_2 ∉ storyIds (User.favorites (currentUser session)))
    as Habsent by compute_done.
  split; [exact Habsent|].
  exact (proj2 (removeFavorite_of_a_stranger_only_sends_request network_down
                  session story_2 Habsent)).
Defined.

Lemma favorite_steps_commute_session :
  Story.storyId story_3 <> Story.storyId story_1
  /\ (exec network_down (removeFavorite story_1)
        (exec network_down (addFavorite story_3) session).2).2
     = (exec network_down (addFavorite story_3)
          (exec network_down (removeFavorite story_1) session).2).2.
Proof.
  assert (Story.storyId story_3 <> Story.storyId story_1) as Hne by compute_done.
  split; [exact Hne|].
  exact (proj2 (favorite_steps_commute network_down session story_3 story_1) Hne).
Defined.

Lemma removeStory_keeps_the_other_stories_session :
  server_acknowledges (delete_story_request session "story-1")
  = Axios.Fulfilled empty_answer
  /\ (story_2 ∈ StoryList.stories
                  (storyList
                     (exec server_acknowledges (removeStory "story-1") session).2)).
Proof.
  split; [reflexivity|].
  destruct (removeStory_keeps_the_other_stories server_acknowledges session
              "story-1" empty_answer eq_refl) as [Hkept _].
  assert (Story.storyId story_2 <> "story-1") as Hne by compute_done.
  apply (proj2 (proj1 (Hkept story_2 Hne))). simpl. right. left.
Defined.

Lemma removeStory_of_unknown_id_session :
  ("story-9" ∉ storyIds (StoryList.stories (storyList session)))
  /\ (exec server_acknowledges (removeStory "story-9") session).2 = session.
Proof.
  assert ("story-9" ∉ storyIds (StoryList.stories (storyList session)))
    as Hstories by compute_done.
  split; [exact Hstories|].
  apply (removeStory_of_unknown_id_changes_nothing server_acknowledges session
           "story-9" Hstories); compute_done.
Defined.

Lemma addStory_then_removeStory_session :
  (StoryRecord.storyId record_3 ∉ storyIds (StoryList.stories (storyList session)))
  /\ (exec (server_answers record_3) (removeStory "story-3")
        (exec (server_answers record_3)
           (addStory "Fresh" "C. Arol" "https://example.com/fresh") session).2).2
     = session.
Proof.
  assert (StoryRecord.storyId record_3
          ∉ storyIds (StoryList.stories (storyList session)))
    as Hstories by compute_done.
  split; [exact Hstories|].
  apply (addStory_then_removeStory_restores_the_store
           (server_answers record_3) (server_answers record_3) session
           "Fresh" "C. Arol" "https://example.com/fresh"
           (answer record_3) (answer record_3) record_3
           eq_refl eq_refl eq_refl Hstories); compute_done.
Defined.

Lemma operations_preserve_unique_stories_session :
  no_duplicate_storyId (StoryList.stories (storyList session))
  /\ no_duplicate_storyId
       (StoryList.stories
          (storyList (exec (server_answers record_3) (removeStory "story-2")
                        session).2))
  /\ no_duplicate_storyId
       (StoryList.stories
          (storyList
             (exec (server_answers record_3)
                (addStory "Fresh" "C. Arol" "https://example.com/fresh")
                session).2)).
Proof.
  assert (no_duplicate_storyId (StoryList.stories (storyList session)))
    as Hunique by compute_done.
  split; [exact Hunique|].
  destruct (operations_preserve_unique_stories (server_answers record_3) session
              story_2 "story-2" "Fresh" "C. Arol" "https://example.com/fresh"
              Hunique) as (Hdelete & _ & _ & Hcreate).
  split; [exact Hdelete|].
  apply Hcreate. intros response record Hnet Hrecord.
  injection Hnet as <-. injection Hrecord as <-. compute_done.
Defined.

Lemma addStory_calls_insert_in_settling_order_session :
  exists k1 k2,
    run (addStory "Fresh" "C. Arol" "https://example.com/fresh") session
    = Suspended
        (create_story_request session "Fresh" "C. Arol" "https://example.com/fresh")
        session k1
    /\ run (addStory "No scheme" "B. Ob" "example.org/no-scheme") session
       = Suspended
           (create_story_request session "No scheme" "B. Ob" "example.org/no-scheme")
           session k2
    /\ StoryList.stories
         (storyList
            (store_of (run (k1 (Axios.Fulfilled (answer record_3)))
               (store_of (run (k2 (Axios.Fulfilled (answer record_2))) session)))))
       = [story_3; story_2; story_1; story_2].
Proof.
  destruct (addStory_calls_insert_in_settling_order session
              "Fresh" "C. Arol" "https://example.com/fresh"
              "No scheme" "B. Ob" "example.org/no-scheme"
              (answer record_3) (answer record_2) record_3 record_2
              eq_refl eq_refl) as (k1 & k2 & Hrun1 & Hrun2 & [Hstories _] & _).
  exists k1, k2. split; [exact Hrun1|]. split; [exact Hrun2|]. exact Hstories.
Defined.
